(** * Request signing and balance formatting of the OKX balance client

    A shallow embedding of [okx_account_balance.py], [okx_balance_secure.py]
    and [test_signature.py].  Python [str] values are lists of Unicode code
    points, [bytes] values are lists of integers in [0, 256), exceptions are
    an explicit result type, and [print], the clock and the HTTP transport
    act on an explicit world. *)

From Stdlib Require Import ZArith List Lia Bool Sorting.Sorted Sorting.Permutation.
From stdpp Require Import base tactics option list numbers strings gmap.

Set Warnings "-register-all".
Local Open Scope Z_scope.

(** ** Python values: strings, bytes, exceptions *)

(** A [str] is a sequence of code points; a [bytes] object a sequence of
    integers below 256. *)
Abbreviation pystr := (list Z).
Abbreviation bytes := (list Z).

Definition is_byte (b : Z) : Prop := 0 <= b < 256.

(** An ASCII literal of the source as a [str]. *)
Definition py (s : string) : pystr :=
  map (fun a => Z.of_N (Ascii.N_of_ascii a)) (String.list_ascii_of_string s).

Inductive exn : Type :=
  | UnicodeEncodeError
  | UnicodeDecodeError
  | ValueError
  | TypeError
  | AttributeError
  | OverflowError.

Inductive result (A : Type) : Type :=
  | Ok (a : A)
  | Raise (e : exn).
Arguments Ok {A} a.
Arguments Raise {A} e.

Definition result_bind {A B} (r : result A) (k : A -> result B) : result B :=
  match r with
  | Ok a => k a
  | Raise e => Raise e
  end.

Definition result_map {A B} (f : A -> B) (r : result A) : result B :=
  result_bind r (fun a => Ok (f a)).

(** ** [str.encode('utf-8')] and [bytes.decode('utf-8')] *)

Definition is_surrogate (c : Z) : bool := (0xD800 <=? c) && (c <=? 0xDFFF).

(** A code point that UTF-8 can carry: in range and not a surrogate. *)
Definition is_scalar (c : Z) : bool :=
  (0 <=? c) && (c <=? 0x10FFFF) && negb (is_surrogate c).

Definition cont_byte (x : Z) : Z := Z.lor 0x80 (Z.land x 0x3F).

(** The UTF-8 bytes of one code point; the strict codec refuses the
    surrogates U+D800..U+DFFF. *)
Definition encode_char (c : Z) : option (list Z) :=
  if c <? 0 then None
  else if c <? 0x80 then Some [c]
  else if c <? 0x800 then Some [Z.lor 0xC0 (Z.shiftr c 6); cont_byte c]
  else if is_surrogate c then None
  else if c <? 0x10000 then
    Some [Z.lor 0xE0 (Z.shiftr c 12); cont_byte (Z.shiftr c 6); cont_byte c]
  else if c <=? 0x10FFFF then
    Some [Z.lor 0xF0 (Z.shiftr c 18); cont_byte (Z.shiftr c 12);
          cont_byte (Z.shiftr c 6); cont_byte c]
  else None.

Fixpoint encode_utf8 (s : pystr) : result bytes :=
  match s with
  | [] => Ok []
  | c :: s' =>
      match encode_char c with
      | None => Raise UnicodeEncodeError
      | Some bs => result_map (app bs) (encode_utf8 s')
      end
  end.

Definition is_cont (b : Z) : bool := (0x80 <=? b) && (b <=? 0xBF).

Definition decoded_rest (c : Z) (r : result pystr) : result pystr :=
  result_map (cons c) r.

(** The strict UTF-8 decoder: shortest forms only, no surrogates, nothing
    above U+10FFFF. *)
Fixpoint decode_utf8 (b : bytes) : result pystr :=
  match b with
  | [] => Ok []
  | b0 :: r0 =>
      if (0 <=? b0) && (b0 <? 0x80) then decoded_rest b0 (decode_utf8 r0)
      else if (0xC2 <=? b0) && (b0 <=? 0xDF) then
        match r0 with
        | b1 :: r1 =>
            if is_cont b1
            then decoded_rest (Z.lor (Z.shiftl (Z.land b0 0x1F) 6) (Z.land b1 0x3F))
                              (decode_utf8 r1)
            else Raise UnicodeDecodeError
        | _ => Raise UnicodeDecodeError
        end
      else if (0xE0 <=? b0) && (b0 <=? 0xEF) then
        match r0 with
        | b1 :: b2 :: r2 =>
            let c := Z.lor (Z.shiftl (Z.land b0 0x0F) 12)
                           (Z.lor (Z.shiftl (Z.land b1 0x3F) 6) (Z.land b2 0x3F)) in
            if is_cont b1 && is_cont b2 && (0x800 <=? c) && negb (is_surrogate c)
            then decoded_rest c (decode_utf8 r2)
            else Raise UnicodeDecodeError
        | _ => Raise UnicodeDecodeError
        end
      else if (0xF0 <=? b0) && (b0 <=? 0xF4) then
        match r0 with
        | b1 :: b2 :: b3 :: r3 =>
            let c := Z.lor (Z.shiftl (Z.land b0 0x07) 18)
                           (Z.lor (Z.shiftl (Z.land b1 0x3F) 12)
                                  (Z.lor (Z.shiftl (Z.land b2 0x3F) 6) (Z.land b3 0x3F))) in
            if is_cont b1 && is_cont b2 && is_cont b3
               && (0x10000 <=? c) && (c <=? 0x10FFFF)
            then decoded_rest c (decode_utf8 r3)
            else Raise UnicodeDecodeError
        | _ => Raise UnicodeDecodeError
        end
      else Raise UnicodeDecodeError
  end.

(** ** [str.upper()] *)

(** The case mapping is the one of Unicode 14.0, as in CPython 3.11: runs
    [(lo, hi, step, delta)] of code points that map to one code point
    [delta] away, and the code points that map to several. *)

Definition ascii_upper (c : Z) : Z :=
  if (97 <=? c) && (c <=? 122) then c - 32 else c.

Definition upper_runs : list (Z * Z * Z * Z) :=
  [
    (181, 181, 1, 743); (224, 246, 1, (-32)); (248, 254, 1, (-32)); (255, 255, 1, 121);
    (257, 303, 2, (-1)); (305, 305, 1, (-232)); (307, 311, 2, (-1)); (314, 328, 2, (-1));
    (331, 375, 2, (-1)); (378, 382, 2, (-1)); (383, 383, 1, (-300)); (384, 384, 1, 195);
    (387, 389, 2, (-1)); (392, 392, 1, (-1)); (396, 396, 1, (-1)); (402, 402, 1, (-1));
    (405, 405, 1, 97); (409, 409, 1, (-1)); (410, 410, 1, 163); (414, 414, 1, 130);
    (417, 421, 2, (-1)); (424, 424, 1, (-1)); (429, 429, 1, (-1)); (432, 432, 1, (-1));
    (436, 438, 2, (-1)); (441, 441, 1, (-1)); (445, 445, 1, (-1)); (447, 447, 1, 56);
    (453, 453, 1, (-1)); (454, 454, 1, (-2)); (456, 456, 1, (-1)); (457, 457, 1, (-2));
    (459, 459, 1, (-1)); (460, 460, 1, (-2)); (462, 476, 2, (-1)); (477, 477, 1, (-79));
    (479, 495, 2, (-1)); (498, 498, 1, (-1)); (499, 499, 1, (-2)); (501, 501, 1, (-1));
    (505, 543, 2, (-1)); (547, 563, 2, (-1)); (572, 572, 1, (-1)); (575, 576, 1, 10815);
    (578, 578, 1, (-1)); (583, 591, 2, (-1)); (592, 592, 1, 10783); (593, 593, 1, 10780);
    (594, 594, 1, 10782); (595, 595, 1, (-210)); (596, 596, 1, (-206)); (598, 599, 1, (-205));
    (601, 601, 1, (-202)); (603, 603, 1, (-203)); (604, 604, 1, 42319); (608, 608, 1, (-205));
    (609, 609, 1, 42315); (611, 611, 1, (-207)); (613, 613, 1, 42280); (614, 614, 1, 42308);
    (616, 616, 1, (-209)); (617, 617, 1, (-211)); (618, 618, 1, 42308); (619, 619, 1, 10743);
    (620, 620, 1, 42305); (623, 623, 1, (-211)); (625, 625, 1, 10749); (626, 626, 1, (-213));
    (629, 629, 1, (-214)); (637, 637, 1, 10727); (640, 640, 1, (-218)); (642, 642, 1, 42307);
    (643, 643, 1, (-218)); (647, 647, 1, 42282); (648, 648, 1, (-218)); (649, 649, 1, (-69));
    (650, 651, 1, (-217)); (652, 652, 1, (-71)); (658, 658, 1, (-219)); (669, 669, 1, 42261);
    (670, 670, 1, 42258); (837, 837, 1, 84); (881, 883, 2, (-1)); (887, 887, 1, (-1));
    (891, 893, 1, 130); (940, 940, 1, (-38)); (941, 943, 1, (-37)); (945, 961, 1, (-32));
    (962, 962, 1, (-31)); (963, 971, 1, (-32)); (972, 972, 1, (-64)); (973, 974, 1, (-63));
    (976, 976, 1, (-62)); (977, 977, 1, (-57)); (981, 981, 1, (-47)); (982, 982, 1, (-54));
    (983, 983, 1, (-8)); (985, 1007, 2, (-1)); (1008, 1008, 1, (-86)); (1009, 1009, 1, (-80));
    (1010, 1010, 1, 7); (1011, 1011, 1, (-116)); (1013, 1013, 1, (-96)); (1016, 1016, 1, (-1));
    (1019, 1019, 1, (-1)); (1072, 1103, 1, (-32)); (1104, 1119, 1, (-80)); (1121, 1153, 2, (-1));
    (1163, 1215, 2, (-1)); (1218, 1230, 2, (-1)); (1231, 1231, 1, (-15)); (1233, 1327, 2, (-1));
    (1377, 1414, 1, (-48)); (4304, 4346, 1, 3008); (4349, 4351, 1, 3008); (5112, 5117, 1, (-8));
    (7296, 7296, 1, (-6254)); (7297, 7297, 1, (-6253)); (7298, 7298, 1, (-6244)); (7299, 7300, 1, (-6242));
    (7301, 7301, 1, (-6243)); (7302, 7302, 1, (-6236)); (7303, 7303, 1, (-6181)); (7304, 7304, 1, 35266);
    (7545, 7545, 1, 35332); (7549, 7549, 1, 3814); (7566, 7566, 1, 35384); (7681, 7829, 2, (-1));
    (7835, 7835, 1, (-59)); (7841, 7935, 2, (-1)); (7936, 7943, 1, 8); (7952, 7957, 1, 8);
    (7968, 7975, 1, 8); (7984, 7991, 1, 8); (8000, 8005, 1, 8); (8017, 8023, 2, 8);
    (8032, 8039, 1, 8); (8048, 8049, 1, 74); (8050, 8053, 1, 86); (8054, 8055, 1, 100);
    (8056, 8057, 1, 128); (8058, 8059, 1, 112); (8060, 8061, 1, 126); (8112, 8113, 1, 8);
    (8126, 8126, 1, (-7205)); (8144, 8145, 1, 8); (8160, 8161, 1, 8); (8165, 8165, 1, 7);
    (8526, 8526, 1, (-28)); (8560, 8575, 1, (-16)); (8580, 8580, 1, (-1)); (9424, 9449, 1, (-26));
    (11312, 11359, 1, (-48)); (11361, 11361, 1, (-1)); (11365, 11365, 1, (-10795)); (11366, 11366, 1, (-10792));
    (11368, 11372, 2, (-1)); (11379, 11379, 1, (-1)); (11382, 11382, 1, (-1)); (11393, 11491, 2, (-1));
    (11500, 11502, 2, (-1)); (11507, 11507, 1, (-1)); (11520, 11557, 1, (-7264)); (11559, 11559, 1, (-7264));
    (11565, 11565, 1, (-7264)); (42561, 42605, 2, (-1)); (42625, 42651, 2, (-1)); (42787, 42799, 2, (-1));
    (42803, 42863, 2, (-1)); (42874, 42876, 2, (-1)); (42879, 42887, 2, (-1)); (42892, 42892, 1, (-1));
    (42897, 42899, 2, (-1)); (42900, 42900, 1, 48); (42903, 42921, 2, (-1)); (42933, 42947, 2, (-1));
    (42952, 42954, 2, (-1)); (42961, 42961, 1, (-1)); (42967, 42969, 2, (-1)); (42998, 42998, 1, (-1));
    (43859, 43859, 1, (-928)); (43888, 43967, 1, (-38864)); (65345, 65370, 1, (-32)); (66600, 66639, 1, (-40));
    (66776, 66811, 1, (-40)); (66967, 66977, 1, (-39)); (66979, 66993, 1, (-39)); (66995, 67001, 1, (-39));
    (67003, 67004, 1, (-39)); (68800, 68850, 1, (-64)); (71872, 71903, 1, (-32)); (93792, 93823, 1, (-32));
    (125218, 125251, 1, (-34))
  ].

Definition upper_special : list (Z * list Z) :=
  [
    (223, [83; 83]); (329, [700; 78]); (496, [74; 780]); (912, [921; 776; 769]);
    (944, [933; 776; 769]); (1415, [1333; 1362]); (7830, [72; 817]); (7831, [84; 776]);
    (7832, [87; 778]); (7833, [89; 778]); (7834, [65; 702]); (8016, [933; 787]);
    (8018, [933; 787; 768]); (8020, [933; 787; 769]); (8022, [933; 787; 834]); (8064, [7944; 921]);
    (8065, [7945; 921]); (8066, [7946; 921]); (8067, [7947; 921]); (8068, [7948; 921]);
    (8069, [7949; 921]); (8070, [7950; 921]); (8071, [7951; 921]); (8072, [7944; 921]);
    (8073, [7945; 921]); (8074, [7946; 921]); (8075, [7947; 921]); (8076, [7948; 921]);
    (8077, [7949; 921]); (8078, [7950; 921]); (8079, [7951; 921]); (8080, [7976; 921]);
    (8081, [7977; 921]); (8082, [7978; 921]); (8083, [7979; 921]); (8084, [7980; 921]);
    (8085, [7981; 921]); (8086, [7982; 921]); (8087, [7983; 921]); (8088, [7976; 921]);
    (8089, [7977; 921]); (8090, [7978; 921]); (8091, [7979; 921]); (8092, [7980; 921]);
    (8093, [7981; 921]); (8094, [7982; 921]); (8095, [7983; 921]); (8096, [8040; 921]);
    (8097, [8041; 921]); (8098, [8042; 921]); (8099, [8043; 921]); (8100, [8044; 921]);
    (8101, [8045; 921]); (8102, [8046; 921]); (8103, [8047; 921]); (8104, [8040; 921]);
    (8105, [8041; 921]); (8106, [8042; 921]); (8107, [8043; 921]); (8108, [8044; 921]);
    (8109, [8045; 921]); (8110, [8046; 921]); (8111, [8047; 921]); (8114, [8122; 921]);
    (8115, [913; 921]); (8116, [902; 921]); (8118, [913; 834]); (8119, [913; 834; 921]);
    (8124, [913; 921]); (8130, [8138; 921]); (8131, [919; 921]); (8132, [905; 921]);
    (8134, [919; 834]); (8135, [919; 834; 921]); (8140, [919; 921]); (8146, [921; 776; 768]);
    (8147, [921; 776; 769]); (8150, [921; 834]); (8151, [921; 776; 834]); (8162, [933; 776; 768]);
    (8163, [933; 776; 769]); (8164, [929; 787]); (8166, [933; 834]); (8167, [933; 776; 834]);
    (8178, [8186; 921]); (8179, [937; 921]); (8180, [911; 921]); (8182, [937; 834]);
    (8183, [937; 834; 921]); (8188, [937; 921]); (64256, [70; 70]); (64257, [70; 73]);
    (64258, [70; 76]); (64259, [70; 70; 73]); (64260, [70; 70; 76]); (64261, [83; 84]);
    (64262, [83; 84]); (64275, [1348; 1350]); (64276, [1348; 1333]); (64277, [1348; 1339]);
    (64278, [1358; 1350]); (64279, [1348; 1341])
  ].

Definition in_run (c : Z) (r : Z * Z * Z * Z) : bool :=
  let '(lo, hi, step, _) := r in
  if lo <=? c then if c <=? hi then (c - lo) mod step =? 0 else false else false.

Definition run_delta (r : Z * Z * Z * Z) : Z := snd r.

Fixpoint assoc_Z {A} (c : Z) (l : list (Z * A)) : option A :=
  match l with
  | [] => None
  | (k, v) :: l' => if k =? c then Some v else assoc_Z c l'
  end.

(** The full upper-case mapping of one code point ([str.upper] maps every
    code point on its own, without looking at its neighbours). *)
Definition to_upper_full (c : Z) : list Z :=
  if c <? 128 then [ascii_upper c]
  else match assoc_Z c upper_special with
       | Some l => l
       | None =>
           match find (in_run c) upper_runs with
           | Some r => [c + run_delta r]
           | None => [c]
           end
       end.

Definition upper (s : pystr) : pystr := flat_map to_upper_full s.

(** The code points of a run, [n] of them from [lo] on. *)
Fixpoint run_points (lo step : Z) (n : nat) : list Z :=
  match n with
  | O => []
  | S n' => lo :: run_points (lo + step) step n'
  end.

Definition points_of (r : Z * Z * Z * Z) : list Z :=
  let '(lo, hi, step, _) := r in
  run_points lo step (Z.to_nat ((hi - lo) / step + 1)).

(** ** [hashlib.sha256] (FIPS 180-4) *)

Module SHA256.

Definition mask32 : Z := 0xFFFFFFFF.

Definition add32 (x y : Z) : Z := (x + y) mod 2 ^ 32.

Definition rotr (n x : Z) : Z :=
  Z.lor (Z.shiftr x n) (Z.land (Z.shiftl x (32 - n)) mask32).

Definition Ch (x y z : Z) : Z :=
  Z.lxor (Z.land x y) (Z.land (Z.lxor x mask32) z).

Definition Maj (x y z : Z) : Z :=
  Z.lxor (Z.lxor (Z.land x y) (Z.land x z)) (Z.land y z).

Definition Sigma0 (x : Z) : Z := Z.lxor (Z.lxor (rotr 2 x) (rotr 13 x)) (rotr 22 x).
Definition Sigma1 (x : Z) : Z := Z.lxor (Z.lxor (rotr 6 x) (rotr 11 x)) (rotr 25 x).
Definition sigma0 (x : Z) : Z := Z.lxor (Z.lxor (rotr 7 x) (rotr 18 x)) (Z.shiftr x 3).
Definition sigma1 (x : Z) : Z := Z.lxor (Z.lxor (rotr 17 x) (rotr 19 x)) (Z.shiftr x 10).

(** The constants of FIPS 180-4, section 4.2.2: the first 32 bits of the
    fractional parts of the cube roots of the first 64 primes. *)
Definition K : list Z :=
  [ 1116352408; 1899447441; 3049323471; 3921009573; 961987163; 1508970993; 2453635748; 2870763221;
    3624381080; 310598401; 607225278; 1426881987; 1925078388; 2162078206; 2614888103; 3248222580;
    3835390401; 4022224774; 264347078; 604807628; 770255983; 1249150122; 1555081692; 1996064986;
    2554220882; 2821834349; 2952996808; 3210313671; 3336571891; 3584528711; 113926993; 338241895;
    666307205; 773529912; 1294757372; 1396182291; 1695183700; 1986661051; 2177026350; 2456956037;
    2730485921; 2820302411; 3259730800; 3345764771; 3516065817; 3600352804; 4094571909; 275423344;
    430227734; 506948616; 659060556; 883997877; 958139571; 1322822218; 1537002063; 1747873779;
    1955562222; 2024104815; 2227730452; 2361852424; 2428436474; 2756734187; 3204031479; 3329325298 ].

(** The initial hash value, section 5.3.3: the same of the square roots of
    the first 8 primes. *)
Definition H0 : list Z :=
  [ 1779033703; 3144134277; 1013904242; 2773480762;
    1359893119; 2600822924; 528734635; 1541459225 ].

(** Big-endian bytes of an integer, [n] of them. *)
Fixpoint be_bytes (n : nat) (x : Z) : bytes :=
  match n with
  | O => []
  | S n' => (Z.shiftr x (8 * Z.of_nat n')) mod 256 :: be_bytes n' x
  end.

Definition be_word (bs : bytes) : Z :=
  fold_left (fun acc b => acc * 256 + b) bs 0.

(** The message followed by the bit 1, zeros up to 56 modulo 64 bytes, and
    the bit length on eight bytes. *)
Definition pad (m : bytes) : bytes :=
  let len := Z.of_nat (length m) in
  m ++ [0x80] ++ repeat 0 (Z.to_nat ((55 - len) mod 64))
    ++ be_bytes 8 ((8 * len) mod 2 ^ 64).

(** Consecutive groups of [n] elements; [fuel] bounds the number of groups. *)
Fixpoint groups {A} (n : nat) (fuel : nat) (l : list A) : list (list A) :=
  match fuel with
  | O => []
  | S fuel' =>
      match l with
      | [] => []
      | _ => firstn n l :: groups n fuel' (skipn n l)
      end
  end.

Definition block_words (blk : bytes) : list Z :=
  map be_word (groups 4 16 blk).

(** The message schedule, from a window of the last sixteen words. *)
Fixpoint schedule (n : nat) (win : list Z) : list Z :=
  match n with
  | O => []
  | S n' =>
      match win with
      | [] => []
      | w0 :: rest =>
          let w1 := nth 0 rest 0 in
          let w9 := nth 8 rest 0 in
          let w14 := nth 13 rest 0 in
          let next := add32 (add32 (add32 (sigma1 w14) w9) (sigma0 w1)) w0 in
          w0 :: schedule n' (rest ++ [next])
      end
  end.

Record regs : Type := Regs { ra : Z; rb : Z; rc : Z; rd : Z; re : Z; rf : Z; rg : Z; rh : Z }.

Definition round (s : regs) (kw : Z * Z) : regs :=
  let t1 := add32 (add32 (add32 (add32 (rh s) (Sigma1 (re s))) (Ch (re s) (rf s) (rg s)))
                         (fst kw)) (snd kw) in
  let t2 := add32 (Sigma0 (ra s)) (Maj (ra s) (rb s) (rc s)) in
  Regs (add32 t1 t2) (ra s) (rb s) (rc s) (add32 (rd s) t1) (re s) (rf s) (rg s).

Definition regs_of (h : list Z) : regs :=
  Regs (nth 0 h 0) (nth 1 h 0) (nth 2 h 0) (nth 3 h 0)
       (nth 4 h 0) (nth 5 h 0) (nth 6 h 0) (nth 7 h 0).

Definition regs_list (s : regs) : list Z :=
  [ra s; rb s; rc s; rd s; re s; rf s; rg s; rh s].

Definition compress (h : list Z) (blk : bytes) : list Z :=
  let w := schedule 64 (block_words blk) in
  let s := fold_left round (combine K w) (regs_of h) in
  map (fun p => add32 (fst p) (snd p)) (combine h (regs_list s)).

Definition hash (m : bytes) : bytes :=
  let p := pad m in
  let h := fold_left compress (groups 64 (length p) p) H0 in
  flat_map (be_bytes 4) h.

Definition block_size : nat := 64.
Definition digest_size : nat := 32.

(** The hash object: what [update] has been fed so far. *)
Record obj : Type := Obj { fed : bytes }.

Definition new (data : bytes) : obj := Obj data.
Definition update (h : obj) (data : bytes) : obj := Obj (fed h ++ data).
Definition copy (h : obj) : obj := Obj (fed h).
Definition digest (h : obj) : bytes := hash (fed h).

End SHA256.

(** ** [hmac.new(key, msg, hashlib.sha256)] and its [digest()] *)

Module HMAC.

Record obj : Type := Obj { inner : SHA256.obj; outer : SHA256.obj }.

Definition translate (x : Z) (key : bytes) : bytes := map (Z.lxor x) key.

Definition ljust (n : nat) (key : bytes) : bytes :=
  key ++ repeat 0 (n - length key)%nat.

Definition new (key msg : bytes) : obj :=
  let key1 :=
    if (SHA256.block_size <? length key)%nat
    then SHA256.digest (SHA256.new key) else key in
  let key2 := ljust SHA256.block_size key1 in
  let o := SHA256.update (SHA256.new []) (translate 0x5C key2) in
  let i := SHA256.update (SHA256.new []) (translate 0x36 key2) in
  Obj (SHA256.update i msg) o.

Definition digest (h : obj) : bytes :=
  let o := SHA256.copy (outer h) in
  SHA256.digest (SHA256.update o (SHA256.digest (inner h))).

End HMAC.

(** ** [base64.b64encode] *)

Definition b64_alphabet : list Z :=
  py "ABCDEFGHIJKLMNOPQRSTUVWXYZabcdefghijklmnopqrstuvwxyz0123456789+/".

Definition b64_char (i : Z) : Z := nth (Z.to_nat i) b64_alphabet 61.

Definition b64_pad : Z := 61.

Fixpoint b64encode (b : bytes) : bytes :=
  match b with
  | [] => []
  | [x] =>
      [b64_char (Z.shiftr x 2); b64_char (Z.shiftl (Z.land x 3) 4); b64_pad; b64_pad]
  | [x; y] =>
      [b64_char (Z.shiftr x 2);
       b64_char (Z.lor (Z.shiftl (Z.land x 3) 4) (Z.shiftr y 4));
       b64_char (Z.shiftl (Z.land y 15) 2); b64_pad]
  | x :: y :: z :: r =>
      b64_char (Z.shiftr x 2)
      :: b64_char (Z.lor (Z.shiftl (Z.land x 3) 4) (Z.shiftr y 4))
      :: b64_char (Z.lor (Z.shiftl (Z.land y 15) 2) (Z.shiftr z 6))
      :: b64_char (Z.land z 63)
      :: b64encode r
  end.

(** A literal of the source that holds characters outside ASCII, read from
    its UTF-8 bytes. *)
Definition py_utf8 (s : string) : pystr :=
  match decode_utf8 (py s) with
  | Ok l => l
  | Raise _ => []
  end.

(** ** Objects, as [response.json()] builds them *)

(** A [float]: not-a-number, an infinity, or the finite value [k * 2^-1074]
    (every finite binary64 number is such a multiple; both zeros are [0]). *)
Inductive pyfloat : Type :=
  | FNan
  | FInf (negative : bool)
  | FFin (k : Z).

Inductive pyobj : Type :=
  | PNone
  | PBool (b : bool)
  | PInt (z : Z)
  | PFloat (f : pyfloat)
  | PStr (s : pystr)
  | PList (l : list pyobj)
  | PDict (d : list (pystr * pyobj)).

Abbreviation pydict := (list (pystr * pyobj)).

Definition pystr_eqb (a b : pystr) : bool := bool_decide (a = b).

(** [key in d] and [d.get(key, default)] on a dict. *)
Fixpoint dict_lookup (d : pydict) (key : pystr) : option pyobj :=
  match d with
  | [] => None
  | (k, v) :: d' => if pystr_eqb k key then Some v else dict_lookup d' key
  end.

Definition dict_contains (d : pydict) (key : pystr) : bool :=
  match dict_lookup d key with Some _ => true | None => false end.

Definition dict_get (d : pydict) (key : pystr) (default : pyobj) : pyobj :=
  match dict_lookup d key with Some v => v | None => default end.

(** ** The world: standard output, the clock and the network *)

(** A printed line: the literal parts of the f-string and the values
    formatted into it. *)
Inductive fragment : Type :=
  | Text (s : string)
  | Fmt (v : pyobj).

Abbreviation line := (list fragment).

Record request : Type := Request {
  req_url : pystr;
  req_headers : gmap pystr pystr;
  req_timeout : Z
}.

(** What [requests.get], [raise_for_status] and [response.json()] come to:
    a [RequestException] or a [JSONDecodeError] with its message, another
    exception, which no [except] clause catches, or the decoded body. *)
Inductive http_outcome : Type :=
  | RequestFailed (msg : pystr)
  | JsonFailed (msg : pystr)
  | Uncaught (e : exn)
  | Json (v : pyobj).

Record World : Type := MkWorld {
  stdout : list line;
  ticks : nat;
  clock : nat -> pystr;
  network : request -> http_outcome;
  sent : list request
}.

Definition M (A : Type) : Type := World -> result A * World.

Definition ret {A} (a : A) : M A := fun w => (Ok a, w).

Definition bind {A B} (m : M A) (k : A -> M B) : M B :=
  fun w =>
    match m w with
    | (Ok a, w') => k a w'
    | (Raise e, w') => (Raise e, w')
    end.

Definition lift {A} (r : result A) : M A := fun w => (r, w).

Declare Scope py_scope.
Delimit Scope py_scope with py.
Notation "x <- m ;; k" := (bind m (fun x => k))
  (at level 100, m at next level, right associativity) : py_scope.
Notation "m ;; k" := (bind m (fun _ => k))
  (at level 100, right associativity) : py_scope.
Local Open Scope py_scope.

(** [str(v)] has a UTF-8 form: a string has one when [encode('utf-8')]
    accepts it, that is when it holds no lone surrogate; a number, [None],
    a list and a dict always have one, since [repr] writes the lone
    surrogates of the strings inside a list or a dict as escapes. *)
Definition writable (v : pyobj) : bool :=
  match v with
  | PStr s => match encode_utf8 s with Ok _ => true | Raise _ => false end
  | PNone | PBool _ | PInt _ | PFloat _ | PList _ | PDict _ => true
  end.

(** The literal parts of the f-strings of the source are text. *)
Definition fragment_ok (f : fragment) : bool :=
  match f with
  | Text _ => true
  | Fmt v => writable v
  end.

Definition printable (l : line) : bool := forallb fragment_ok l.

(** [print(f"...")] on a standard output that is a UTF-8 text stream with
    strict error handling, as Python opens it under a UTF-8 locale: the line
    is encoded before anything of it is written, so a text that holds a lone
    surrogate raises [UnicodeEncodeError] and leaves the output as it was. *)
Definition print (l : line) : M unit :=
  fun w =>
    if printable l
    then (Ok tt, MkWorld (stdout w ++ [l]) (ticks w) (clock w) (network w) (sent w))
    else (Raise UnicodeEncodeError, w).

(** [datetime.utcnow().strftime('%Y-%m-%dT%H:%M:%S.%f')]: the clock is read,
    and has moved on at the next reading. *)
Definition utcnow_strftime : M pystr :=
  fun w => (Ok (clock w (ticks w)),
            MkWorld (stdout w) (S (ticks w)) (clock w) (network w) (sent w)).

(** [requests.get(url, headers=headers, timeout=30)] with
    [raise_for_status()] and [json()]. *)
Definition requests_get_json (url : pystr) (headers : gmap pystr pystr) (timeout : Z)
  : M http_outcome :=
  fun w =>
    let r := Request url headers timeout in
    (Ok (network w r),
     MkWorld (stdout w) (ticks w) (clock w) (network w) (sent w ++ [r])).

(** The slice [s[:-3]]. *)
Definition drop_last3 (s : pystr) : pystr := firstn (length s - 3)%nat s.


(** ** [float(x)] *)

(** Round to the nearest integer, ties to even: the quotient [n / d]. *)
Definition round_half_even (n d : Z) : Z :=
  let q := n / d in
  let r := n mod d in
  if 2 * r <? d then q
  else if d <? 2 * r then q + 1
  else if Z.even q then q else q + 1.

(** The binary64 number nearest to [n / d] (for [0 <= n], [0 < d]), in units
    of [2^-1074]; [None] when it rounds beyond the largest finite number. *)
Definition round_binary64 (n d : Z) : option Z :=
  let scaled := n * 2 ^ 1074 in
  let q := scaled / d in
  let k :=
    if q <? 2 ^ 53 then round_half_even scaled d
    else
      let sh := Z.log2 q - 52 in
      round_half_even scaled (d * 2 ^ sh) * 2 ^ sh in
  if k <? 2 ^ 2098 then Some k else None.

(** [float(int)]: an [OverflowError] beyond the finite range. *)
Definition float_of_int (z : Z) : result pyfloat :=
  match round_binary64 (Z.abs z) 1 with
  | Some k => Ok (FFin (Z.sgn z * k))
  | None => Raise OverflowError
  end.

Definition is_digit (c : Z) : bool := (48 <=? c) && (c <=? 57).

Definition is_space_ascii (c : Z) : bool := ((9 <=? c) && (c <=? 13)) || (c =? 32).

(** White space and decimal digits outside ASCII. *)
Definition unicode_spaces : list Z :=
  [ 133; 160; 5760; 8192; 8193; 8194; 8195; 8196; 8197; 8198; 8199; 8200;
    8201; 8202; 8232; 8233; 8239; 8287; 12288 ].

Definition decimal_zeros : list Z :=
  [ 1632; 1776; 1984; 2406; 2534; 2662; 2790; 2918; 3046; 3174;
    3302; 3430; 3558; 3664; 3792; 3872; 4160; 4240; 6112; 6160;
    6470; 6608; 6784; 6800; 6992; 7088; 7232; 7248; 42528; 43216;
    43264; 43472; 43504; 43600; 44016; 65296; 66720; 68912; 69734; 69872;
    69942; 70096; 70384; 70736; 70864; 71248; 71360; 71472; 71904; 72016;
    72784; 73040; 73120; 92768; 92864; 93008; 120782; 120792; 120802; 120812;
    120822; 123200; 123632; 125264; 130032 ].

(** Every character outside ASCII becomes a space (white space), an ASCII
    digit (a decimal digit) or a question mark. *)
Definition to_ascii_decimal (c : Z) : Z :=
  if (0 <=? c) && (c <? 127) then c
  else if existsb (Z.eqb c) unicode_spaces then 32
  else match find (fun z => (z <=? c) && (c <=? z + 9)) decimal_zeros with
       | Some z => 48 + (c - z)
       | None => 63
       end.

(** An underscore is dropped between two digits and refused elsewhere. *)
Fixpoint drop_underscores (prev : Z) (s : list Z) : option (list Z) :=
  match s with
  | [] => if prev =? 95 then None else Some []
  | c :: r =>
      if c =? 95 then
        if is_digit prev then drop_underscores c r else None
      else if (prev =? 95) && negb (is_digit c) then None
      else option_map (cons c) (drop_underscores c r)
  end.

Fixpoint lstrip (s : list Z) : list Z :=
  match s with
  | c :: r => if is_space_ascii c then lstrip r else s
  | [] => []
  end.

Definition strip (s : list Z) : list Z := rev (lstrip (rev (lstrip s))).

Fixpoint take_digits (s : list Z) : list Z * list Z :=
  match s with
  | c :: r =>
      if is_digit c then let '(ds, rest) := take_digits r in (c :: ds, rest)
      else ([], s)
  | [] => ([], [])
  end.

Definition digits_value (ds : list Z) : Z :=
  fold_left (fun acc c => acc * 10 + (c - 48)) ds 0.

Definition parse_sign (s : list Z) : bool * list Z :=
  match s with
  | 45 :: r => (true, r)
  | 43 :: r => (false, r)
  | _ => (false, s)
  end.

(** Digits, an optional point and digits, an optional exponent: the digits
    as one integer, the power of ten, and what is left of the text.  An [e]
    that no digit follows is not part of the number. *)
Definition parse_decimal (s : list Z) : option (Z * Z * list Z) :=
  let '(ip, r1) := take_digits s in
  let '(fp, r2) :=
    match r1 with
    | 46 :: r => take_digits r
    | _ => ([], r1)
    end in
  match ip ++ fp with
  | [] => None
  | ds =>
      let mant := digits_value ds in
      let frac := Z.of_nat (length fp) in
      match r2 with
      | c :: r3 =>
          if (c =? 101) || (c =? 69) then
            let '(eneg, r4) := parse_sign r3 in
            let '(ed, r5) := take_digits r4 in
            match ed with
            | [] => Some (mant, - frac, r2)
            | _ =>
                let e := digits_value ed in
                Some (mant, (if eneg then - e else e) - frac, r5)
            end
          else Some (mant, - frac, r2)
      | [] => Some (mant, - frac, r2)
      end
  end.

Definition ascii_lower (c : Z) : Z :=
  if (65 <=? c) && (c <=? 90) then c + 32 else c.

(** [inf], [infinity] and [nan], in any case, after an optional sign. *)
Definition parse_inf_or_nan (s : list Z) : option pyfloat :=
  let '(neg, r) := parse_sign s in
  let w := map ascii_lower r in
  if bool_decide (w = py "inf") || bool_decide (w = py "infinity") then Some (FInf neg)
  else if bool_decide (w = py "nan") then Some FNan
  else None.

(** The correctly rounded value of [mant * 10^e10]. *)
Definition decimal_to_float (neg : bool) (mant e10 : Z) : pyfloat :=
  let r :=
    if 0 <=? e10 then round_binary64 (mant * 10 ^ e10) 1
    else round_binary64 mant (10 ^ (- e10)) in
  match r with
  | Some k => FFin (if neg then - k else k)
  | None => FInf neg
  end.

Definition parse_float (s : list Z) : option pyfloat :=
  let '(neg, r) := parse_sign s in
  match parse_decimal r with
  | Some (mant, e10, []) => Some (decimal_to_float neg mant e10)
  | Some (_, _, _ :: _) => None
  | None => parse_inf_or_nan s
  end.

(** [float(s)] for a [str]. *)
Definition float_of_str (s : pystr) : result pyfloat :=
  match drop_underscores 0 (map to_ascii_decimal s) with
  | None => Raise ValueError
  | Some t =>
      match parse_float (strip t) with
      | Some f => Ok f
      | None => Raise ValueError
      end
  end.

Definition float_of (x : pyobj) : result pyfloat :=
  match x with
  | PStr s => float_of_str s
  | PInt z => float_of_int z
  | PBool b => Ok (FFin (if b then 2 ^ 1074 else 0))
  | PFloat f => Ok f
  | PNone | PList _ | PDict _ => Raise TypeError
  end.

(** [a < b] on floats; every comparison with a NaN is false. *)
Definition float_ltb (a b : pyfloat) : bool :=
  match a, b with
  | FNan, _ | _, FNan => false
  | FFin x, FFin y => x <? y
  | FInf true, FInf true => false
  | FInf true, _ => true
  | _, FInf true => false
  | FInf false, _ => false
  | FFin _, FInf false => true
  end.

(** [x > 0] for a float [x]. *)
Definition float_positive (x : pyfloat) : bool := float_ltb (FFin 0) x.

(** ** Operations on objects *)

(** [bool(x)], as [if not x] tests it. *)
Definition truthy (x : pyobj) : bool :=
  match x with
  | PNone => false
  | PBool b => b
  | PInt z => negb (z =? 0)
  | PFloat (FFin k) => negb (k =? 0)
  | PFloat _ => true
  | PStr s => match s with [] => false | _ => true end
  | PList l => match l with [] => false | _ => true end
  | PDict d => match d with [] => false | _ => true end
  end.

(** The items a [for] loop visits: the elements of a list, the characters of
    a string, the keys of a dict; other objects are not iterable. *)
Definition iterate (x : pyobj) : result (list pyobj) :=
  match x with
  | PList l => Ok l
  | PStr s => Ok (map (fun c => PStr [c]) s)
  | PDict d => Ok (map (fun kv => PStr (fst kv)) d)
  | PNone | PBool _ | PInt _ | PFloat _ => Raise TypeError
  end.

(** [x.get(key, default)]: only a dict has the method. *)
Definition obj_get (x : pyobj) (key : pystr) (default : pyobj) : result pyobj :=
  match x with
  | PDict d => Ok (dict_get d key default)
  | _ => Raise AttributeError
  end.

(** [x == s] for a string [s]. *)
Definition eq_str (x : pyobj) (s : pystr) : bool :=
  match x with
  | PStr t => pystr_eqb t s
  | _ => false
  end.

Fixpoint for_each {A} (l : list A) (body : A -> M unit) : M unit :=
  match l with
  | [] => ret tt
  | x :: l' => body x ;; for_each l' body
  end.

(** [[x for x in l if p(x)]] where the test may raise. *)
Fixpoint filter_result {A} (p : A -> result bool) (l : list A) : result (list A) :=
  match l with
  | [] => Ok []
  | x :: l' =>
      result_bind (p x) (fun keep =>
      result_bind (filter_result p l') (fun rest =>
      Ok (if keep then x :: rest else rest)))
  end.

Fixpoint map_result {A B} (f : A -> result B) (l : list A) : result (list B) :=
  match l with
  | [] => Ok []
  | x :: l' =>
      result_bind (f x) (fun y =>
      result_bind (map_result f l') (fun ys => Ok (y :: ys)))
  end.

(** [sorted(l, key=..., reverse=True)] on the computed keys.  The sort is
    stable, also when reversed: equal keys keep their order, a larger key
    comes first. *)
Fixpoint insert_desc {A} (x : pyfloat * A) (l : list (pyfloat * A)) : list (pyfloat * A) :=
  match l with
  | [] => [x]
  | y :: l' =>
      if float_ltb (fst x) (fst y) then y :: insert_desc x l' else x :: l
  end.

Definition sort_desc {A} (l : list (pyfloat * A)) : list (pyfloat * A) :=
  foldr insert_desc [] l.

Definition sorted_reverse {A} (key : A -> result pyfloat) (l : list A) : result (list A) :=
  result_bind (map_result key l) (fun keys =>
  Ok (map snd (sort_desc (combine keys l)))).

Fixpoint str_mul (s : string) (n : nat) : string :=
  match n with
  | O => EmptyString
  | S n' => String.append s (str_mul s n')
  end.

(** The five lines printed for one currency. *)
Definition print_detail (detail : pyobj) : M unit :=
  ccy <- lift (obj_get detail (py "ccy") (PStr (py "N/A"))) ;;
  cash_bal <- lift (obj_get detail (py "cashBal") (PStr (py "0"))) ;;
  available_bal <- lift (obj_get detail (py "availBal") (PStr (py "0"))) ;;
  frozen_bal <- lift (obj_get detail (py "frozenBal") (PStr (py "0"))) ;;
  print [Text "   币种: "; Fmt ccy] ;;
  print [Text "   ├─ 总余额: "; Fmt cash_bal] ;;
  print [Text "   ├─ 可用余额: "; Fmt available_bal] ;;
  print [Text "   └─ 冻结余额: "; Fmt frozen_bal] ;;
  print [Text (String.append "   " (str_mul "-" 30))].
(** ** okx_account_balance.py *)

Module okx_account_balance.

Record OKXAPIClient : Type := MkClient {
  api_key : pystr;
  secret_key : pystr;
  passphrase : pystr;
  base_url : pystr
}.

Definition __init__ (api_key secret_key passphrase : pystr) (is_sandbox : bool)
  : OKXAPIClient :=
  MkClient api_key secret_key passphrase
    (if is_sandbox then py "https://www.okx.com" else py "https://www.okx.com").

Definition _get_timestamp (self : OKXAPIClient) : M pystr :=
  s <- utcnow_strftime ;;
  ret (drop_last3 s ++ py "Z").

Definition _generate_signature (self : OKXAPIClient)
    (timestamp method request_path body : pystr) : M pystr :=
  let prehash := timestamp ++ upper method ++ request_path ++ body in
  key <- lift (encode_utf8 (secret_key self)) ;;
  msg <- lift (encode_utf8 prehash) ;;
  let signature := HMAC.digest (HMAC.new key msg) in
  lift (decode_utf8 (b64encode signature)).

Definition _get_headers (self : OKXAPIClient)
    (timestamp method request_path body : pystr) : M (gmap pystr pystr) :=
  signature <- _generate_signature self timestamp method request_path body ;;
  ret (<[py "OK-ACCESS-KEY" := api_key self]>
       (<[py "OK-ACCESS-SIGN" := signature]>
       (<[py "OK-ACCESS-TIMESTAMP" := timestamp]>
       (<[py "OK-ACCESS-PASSPHRASE" := passphrase self]>
       (<[py "Content-Type" := py "application/json"]> ∅))))).

Definition get_account_balance (self : OKXAPIClient) (ccy : option pystr) : M pyobj :=
  let request_path := py "/api/v5/account/balance" in
  let request_path :=
    match ccy with
    | Some (c :: cs) => request_path ++ (py "?ccy=" ++ c :: cs)
    | Some [] | None => request_path
    end in
  timestamp <- _get_timestamp self ;;
  headers <- _get_headers self timestamp (py "GET") request_path (py "") ;;
  let url := base_url self ++ request_path in
  out <- requests_get_json url headers 30 ;;
  match out with
  | Json v => ret v
  | RequestFailed e =>
      ret (PDict [(py "error", PStr (py_utf8 "请求失败: " ++ e))])
  | JsonFailed e =>
      ret (PDict [(py "error", PStr (py_utf8 "JSON解析失败: " ++ e))])
  | Uncaught e => lift (Raise e)
  end.


Definition format_balance_response (self : OKXAPIClient) (response : pydict) : M unit :=
  if dict_contains response (py "error") then
    print [Text "❌ 错误: "; Fmt (dict_get response (py "error") PNone)]
  else if negb (eq_str (dict_get response (py "code") PNone) (py "0")) then
    print [Text "❌ API错误: ";
           Fmt (dict_get response (py "msg") (PStr (py_utf8 "未知错误")))]
  else
    let data := dict_get response (py "data") (PList []) in
    if negb (truthy data) then print [Text "📊 账户余额信息为空"]
    else
      print [Text "💰 账户余额信息"] ;;
      print [Text (str_mul "=" 60)] ;;
      accounts <- lift (iterate data) ;;
      for_each accounts (fun account =>
        details <- lift (obj_get account (py "details") (PList [])) ;;
        if negb (truthy details) then print [Text "   暂无余额信息"]
        else
          items <- lift (iterate details) ;;
          for_each items print_detail).

End okx_account_balance.

(** ** okx_balance_secure.py *)

Module okx_balance_secure.

Record OKXAPIClient : Type := MkClient {
  api_key : pystr;
  secret_key : pystr;
  passphrase : pystr;
  base_url : pystr
}.

Definition __init__ (api_key secret_key passphrase : pystr) (is_sandbox : bool)
  : OKXAPIClient :=
  MkClient api_key secret_key passphrase
    (if is_sandbox then py "https://www.okx.com" else py "https://www.okx.com").

Definition _get_timestamp (self : OKXAPIClient) : M pystr :=
  s <- utcnow_strftime ;;
  ret (drop_last3 s ++ py "Z").

Definition _generate_signature (self : OKXAPIClient)
    (timestamp method request_path body : pystr) : M pystr :=
  let prehash := timestamp ++ upper method ++ request_path ++ body in
  key <- lift (encode_utf8 (secret_key self)) ;;
  msg <- lift (encode_utf8 prehash) ;;
  let signature := HMAC.digest (HMAC.new key msg) in
  lift (decode_utf8 (b64encode signature)).

Definition _get_headers (self : OKXAPIClient)
    (timestamp method request_path body : pystr) : M (gmap pystr pystr) :=
  signature <- _generate_signature self timestamp method request_path body ;;
  ret (<[py "OK-ACCESS-KEY" := api_key self]>
       (<[py "OK-ACCESS-SIGN" := signature]>
       (<[py "OK-ACCESS-TIMESTAMP" := timestamp]>
       (<[py "OK-ACCESS-PASSPHRASE" := passphrase self]>
       (<[py "Content-Type" := py "application/json"]> ∅))))).

Definition get_account_balance (self : OKXAPIClient) (ccy : option pystr) : M pyobj :=
  let request_path := py "/api/v5/account/balance" in
  let request_path :=
    match ccy with
    | Some (c :: cs) => request_path ++ (py "?ccy=" ++ c :: cs)
    | Some [] | None => request_path
    end in
  timestamp <- _get_timestamp self ;;
  headers <- _get_headers self timestamp (py "GET") request_path (py "") ;;
  let url := base_url self ++ request_path in
  out <- requests_get_json url headers 30 ;;
  match out with
  | Json v => ret v
  | RequestFailed e =>
      ret (PDict [(py "error", PStr (py_utf8 "请求失败: " ++ e))])
  | JsonFailed e =>
      ret (PDict [(py "error", PStr (py_utf8 "JSON解析失败: " ++ e))])
  | Uncaught e => lift (Raise e)
  end.

(** [float(d.get('cashBal', '0'))], the test of the filter and the key of
    the sort. *)
Definition cash_float (d : pyobj) : result pyfloat :=
  result_bind (obj_get d (py "cashBal") (PStr (py "0"))) float_of.

Definition format_balance_response (self : OKXAPIClient) (response : pydict) : M unit :=
  if dict_contains response (py "error") then
    print [Text "❌ 错误: "; Fmt (dict_get response (py "error") PNone)]
  else if negb (eq_str (dict_get response (py "code") PNone) (py "0")) then
    print [Text "❌ API错误 (代码: "; Fmt (dict_get response (py "code") PNone);
           Text "): "; Fmt (dict_get response (py "msg") (PStr (py_utf8 "未知错误")))]
  else
    let data := dict_get response (py "data") (PList []) in
    if negb (truthy data) then print [Text "📊 账户余额信息为空"]
    else
      print [Text "💰 账户余额信息"] ;;
      print [Text (str_mul "=" 60)] ;;
      accounts <- lift (iterate data) ;;
      for_each accounts (fun account =>
        details <- lift (obj_get account (py "details") (PList [])) ;;
        if negb (truthy details) then print [Text "   暂无余额信息"]
        else
          items <- lift (iterate details) ;;
          non_zero_details <-
            lift (filter_result (fun d => result_map float_positive (cash_float d)) items) ;;
          sorted_details <- lift (sorted_reverse cash_float non_zero_details) ;;
          match sorted_details with
          | [] => print [Text "   所有币种余额为0"]
          | _ => for_each sorted_details print_detail
          end).

End okx_balance_secure.

(** ** test_signature.py *)

Module test_signature.

Definition generate_signature (timestamp method request_path body secret_key : pystr)
  : M pystr :=
  let prehash := timestamp ++ upper method ++ request_path ++ body in
  print [Text "📝 Pre-hash 字符串: '"; Fmt (PStr prehash); Text "'"] ;;
  key <- lift (encode_utf8 secret_key) ;;
  msg <- lift (encode_utf8 prehash) ;;
  let signature := HMAC.digest (HMAC.new key msg) in
  encoded_signature <- lift (decode_utf8 (b64encode signature)) ;;
  print [Text "🔐 生成的签名: "; Fmt (PStr encoded_signature)] ;;
  ret encoded_signature.

End test_signature.

(** ** The specification's words *)

(** HMAC over SHA-256 as RFC 2104 defines it:
    [H((K xor opad) || H((K xor ipad) || text))], the key hashed when longer
    than a block and padded with zeros to a block. *)
Definition spec_hmac_sha256 (key msg : bytes) : bytes :=
  let k := if (64 <? length key)%nat then SHA256.hash key else key in
  let k := k ++ repeat 0 (64 - length k)%nat in
  SHA256.hash (map (Z.lxor 0x5C) k ++ SHA256.hash (map (Z.lxor 0x36) k ++ msg)).

(** The two inputs SHA-256 is given in [spec_hmac_sha256]: the inner one
    holds the message, the outer one the hash of the inner one. *)
Definition hmac_block (key : bytes) : bytes :=
  let k := if (64 <? length key)%nat then SHA256.hash key else key in
  k ++ repeat 0 (64 - length k)%nat.

Definition hmac_inner (key msg : bytes) : bytes :=
  map (Z.lxor 0x36) (hmac_block key) ++ msg.

Definition hmac_outer (key msg : bytes) : bytes :=
  map (Z.lxor 0x5C) (hmac_block key) ++ SHA256.hash (hmac_inner key msg).

(** Two different byte strings of one SHA-256 hash. *)
Definition sha256_collision (x y : bytes) : Prop :=
  x <> y /\ SHA256.hash x = SHA256.hash y.

(** The signature of section 4.1: the pre-hash string
    [timestamp + method + path + body] with the method in upper case, its
    HMAC keyed by the secret, both in UTF-8, and the digest in base64. *)
Definition spec_signature (secret timestamp method path body : pystr) : result pystr :=
  result_bind (encode_utf8 secret) (fun key =>
  result_bind (encode_utf8 (timestamp ++ upper method ++ path ++ body)) (fun msg =>
  Ok (b64encode (spec_hmac_sha256 key msg)))).

(** Two byte strings of one length that differ at exactly one position. *)
Fixpoint one_byte_apart (a b : bytes) : bool :=
  match a, b with
  | x :: a', y :: b' =>
      if x =? y then one_byte_apart a' b' else bool_decide (a' = b')
  | _, _ => false
  end.

(** Two strings whose UTF-8 forms differ in exactly one byte. *)
Definition str_one_byte_apart (s t : pystr) : bool :=
  match encode_utf8 s, encode_utf8 t with
  | Ok a, Ok b => one_byte_apart a b
  | _, _ => false
  end.

(** Exactly one of the four signed fields changes, by one byte; the method
    is compared in upper case. *)
Definition one_field_one_byte (ts m p b ts' m' p' b' : pystr) : Prop :=
  (str_one_byte_apart ts ts' = true /\ upper m = upper m' /\ p = p' /\ b = b') \/
  (ts = ts' /\ str_one_byte_apart (upper m) (upper m') = true /\ p = p' /\ b = b') \/
  (ts = ts' /\ upper m = upper m' /\ str_one_byte_apart p p' = true /\ b = b') \/
  (ts = ts' /\ upper m = upper m' /\ p = p' /\ str_one_byte_apart b b' = true).

(** A world to run the examples in: nothing printed or sent yet, a clock
    that stands still and a network that is down. *)
Definition world0 : World :=
  MkWorld [] 0 (fun _ => py "2020-12-08T09:08:57.715123")
          (fun _ => RequestFailed (py "offline")) [].

(** The path of the balance request as it is specified: the bare endpoint
    without a currency or with the empty one, else the endpoint followed by
    [?ccy=] and the currency. *)
Definition spec_request_path (ccy : option pystr) : pystr :=
  match ccy with
  | None => py "/api/v5/account/balance"
  | Some c =>
      if bool_decide (c = []) then py "/api/v5/account/balance"
      else py "/api/v5/account/balance?ccy=" ++ c
  end.

(** The five header fields around a signature. *)
Definition spec_headers (api_key signature timestamp passphrase : pystr)
  : gmap pystr pystr :=
  {[ py "OK-ACCESS-KEY" := api_key;
     py "OK-ACCESS-SIGN" := signature;
     py "OK-ACCESS-TIMESTAMP" := timestamp;
     py "OK-ACCESS-PASSPHRASE" := passphrase;
     py "Content-Type" := py "application/json" ]}.

(** What [get_account_balance] returns for an outcome of the request. *)
Definition balance_result (out : http_outcome) : result pyobj :=
  match out with
  | Json v => Ok v
  | RequestFailed e => Ok (PDict [(py "error", PStr (py_utf8 "请求失败: " ++ e))])
  | JsonFailed e => Ok (PDict [(py "error", PStr (py_utf8 "JSON解析失败: " ++ e))])
  | Uncaught e => Raise e
  end.

(** A mapping of exactly the five authentication headers. *)
Definition has_five_fields (h : gmap pystr pystr)
    (api_key signature timestamp passphrase : pystr) : Prop :=
  size h = 5%nat /\
  h !! py "OK-ACCESS-KEY" = Some api_key /\
  h !! py "OK-ACCESS-SIGN" = Some signature /\
  h !! py "OK-ACCESS-TIMESTAMP" = Some timestamp /\
  h !! py "OK-ACCESS-PASSPHRASE" = Some passphrase /\
  h !! py "Content-Type" = Some (py "application/json").

(** The world after more lines were printed. *)
Definition add_lines (w : World) (ls : list line) : World :=
  MkWorld (stdout w ++ ls) (ticks w) (clock w) (network w) (sent w).

(** ** The balance listing in the specification's words *)

(** The total balance of an entry: [float(cashBal)], where it has a value. *)
Definition balance_of (d : pyobj) : pyfloat :=
  match okx_balance_secure.cash_float d with
  | Ok f => f
  | Raise _ => FNan
  end.

Definition is_zero_float (f : pyfloat) : bool :=
  match f with
  | FFin k => k =? 0
  | _ => false
  end.

(** Zero, a positive number or plus infinity. *)
Definition nonneg_float (f : pyfloat) : bool :=
  match f with
  | FNan => false
  | FInf negative => negb negative
  | FFin k => 0 <=? k
  end.

Definition is_dict (x : pyobj) : bool :=
  match x with
  | PDict _ => true
  | _ => false
  end.

(** An entry of a details list: a dict whose balance reads as a float that
    is not negative. *)
Definition balance_entry (d : pyobj) : bool :=
  is_dict d && nonneg_float (balance_of d).

(** The details list of an account. *)
Definition details_of (account : pyobj) : list pyobj :=
  match account with
  | PDict a =>
      match dict_lookup a (py "details") with
      | Some (PList ds) => ds
      | _ => []
      end
  | _ => []
  end.

(** An account: a dict with a details list that is not empty, all of whose
    entries are balance entries. *)
Definition balance_account (account : pyobj) : Prop :=
  is_dict account = true /\ details_of account <> [] /\
  Forall (fun d => balance_entry d = true) (details_of account).

(** The lines that show one entry. *)
Definition detail_lines (d : pyobj) : list line :=
  match d with
  | PDict e =>
      [ [Text "   币种: "; Fmt (dict_get e (py "ccy") (PStr (py "N/A")))];
        [Text "   ├─ 总余额: "; Fmt (dict_get e (py "cashBal") (PStr (py "0")))];
        [Text "   ├─ 可用余额: "; Fmt (dict_get e (py "availBal") (PStr (py "0")))];
        [Text "   └─ 冻结余额: "; Fmt (dict_get e (py "frozenBal") (PStr (py "0")))];
        [Text "   ------------------------------"] ]
  | _ => []
  end.

(** An entry whose five lines can be written: none of the four fields
    shown is a string with a lone surrogate. *)
Definition writable_entry (d : pyobj) : bool := forallb printable (detail_lines d).

(** An account whose entries of a balance other than zero can be written. *)
Definition shown_writable (account : pyobj) : Prop :=
  Forall (fun d => is_zero_float (balance_of d) = false -> writable_entry d = true)
         (details_of account).

(** The lines that show the entries of one account, or that there is none
    to show. *)
Definition account_lines (shown : list pyobj) : list line :=
  match shown with
  | [] => [[Text "   所有币种余额为0"]]
  | _ => flat_map detail_lines shown
  end.

Definition banner_lines : list line :=
  [ [Text "💰 账户余额信息"];
    [Text "============================================================"] ].

(** Descending order of the total balance: no entry is followed by one of a
    larger balance. *)
Definition descending_balance (l : list pyobj) : Prop :=
  StronglySorted (fun d1 d2 => float_ltb (balance_of d1) (balance_of d2) = false) l.

(** The order of the sort on the decorated entries: not smaller. *)
Definition key_ge {A} (x y : pyfloat * A) : Prop := float_ltb (fst x) (fst y) = false.

(** The entries the secure formatter shows for a details list: those of a
    positive balance, sorted. *)
Definition shown_entries (ds : list pyobj) : list pyobj :=
  let non_zero := List.filter (fun d => float_positive (balance_of d)) ds in
  map snd (sort_desc (combine (map balance_of non_zero) non_zero)).

(** A code point that is its own upper-case form. *)
Definition fixed_by_upper (c : Z) : bool := bool_decide (to_upper_full c = [c]).

(** A success response that also carries an [error] key, with one account
    of a positive and a zero balance. *)
Definition response_with_error_key : pydict :=
  [ (py "error", PStr (py "stale"));
    (py "code", PStr (py "0"));
    (py "data",
     PList [PDict [(py "details",
       PList [ PDict [(py "ccy", PStr (py "BTC")); (py "cashBal", PStr (py "1.5"))];
               PDict [(py "ccy", PStr (py "ETH")); (py "cashBal", PStr (py "0"))] ])]]) ].

(** A success response with balances 0.5, 0, 2 and 0.5 again. *)
Definition response_four_balances : pydict :=
  [ (py "code", PStr (py "0"));
    (py "msg", PStr (py ""));
    (py "data",
     PList [PDict [(py "details",
       PList [ PDict [(py "ccy", PStr (py "BTC")); (py "cashBal", PStr (py "0.5"))];
               PDict [(py "ccy", PStr (py "ETH")); (py "cashBal", PStr (py "0"))];
               PDict [(py "ccy", PStr (py "USDT")); (py "cashBal", PStr (py "2"))];
               PDict [(py "ccy", PStr (py "OKB")); (py "cashBal", PStr (py "0.50"))] ])]]) ].

(** A success response with a negative balance next to a positive one. *)
Definition response_negative_balance : pydict :=
  [ (py "code", PStr (py "0"));
    (py "data",
     PList [PDict [(py "details",
       PList [ PDict [(py "ccy", PStr (py "USDT")); (py "cashBal", PStr (py "-5"))];
               PDict [(py "ccy", PStr (py "BTC")); (py "cashBal", PStr (py "1"))] ])]]) ].

Definition secure_client0 : okx_balance_secure.OKXAPIClient :=
  okx_balance_secure.MkClient (py "key") (py "22582BD0CFF14C41EDBF1AB98506286D")
                              (py "pass") (py "https://www.okx.com").

(** * Properties *)

(** [lia] is to see through quotients and remainders by constants. *)
Ltac Zify.zify_post_hook ::= Z.to_euclidean_division_equations.

(** ** The model of the interpreter on examples *)

Example encode_utf8_examples :
  encode_utf8 [0x20AC; 0x1F680; 0xE9; 0x41]
  = Ok [226; 130; 172; 240; 159; 154; 128; 195; 169; 65] /\
  decode_utf8 [226; 130; 172; 240; 159; 154; 128; 195; 169; 65]
  = Ok [0x20AC; 0x1F680; 0xE9; 0x41] /\
  encode_utf8 [0x41; 0xDC80] = Raise UnicodeEncodeError /\
  decode_utf8 [0xC0; 0x80] = Raise UnicodeDecodeError.
Proof. repeat split; vm_compute; reflexivity. Qed.

Example upper_examples :
  upper (py "get") = py "GET" /\
  upper (py "Post-1") = py "POST-1" /\
  upper [0xDF; 0xE9; 0x149] = [0x53; 0x53; 0xC9; 0x2BC; 0x4E].
Proof. repeat split; vm_compute; reflexivity. Qed.

Example b64encode_examples :
  b64encode (py "") = py "" /\
  b64encode (py "f") = py "Zg==" /\
  b64encode (py "fo") = py "Zm8=" /\
  b64encode (py "foobar") = py "Zm9vYmFy".
Proof. repeat split; vm_compute; reflexivity. Qed.

Example float_examples :
  float_of_str (py "1.5") = Ok (FFin (3 * 2 ^ 1073)) /\
  float_of_str (py "0.00000000") = Ok (FFin 0) /\
  float_of_str (py "-5") = Ok (FFin (- 5 * 2 ^ 1074)) /\
  float_of_str (py "0.1") = Ok (FFin (3602879701896397 * 2 ^ 1019)) /\
  float_of_str (py " 1_000e-3 ") = Ok (FFin (2 ^ 1074)) /\
  float_of_str [0x661; 0x662; 0x663] = Ok (FFin (123 * 2 ^ 1074)) /\
  float_of_str (py "1e400") = Ok (FInf false) /\
  float_of_str (py "1e-400") = Ok (FFin 0) /\
  float_of_str (py "5e-324") = Ok (FFin 1) /\
  float_of_str (py "-Infinity") = Ok (FInf true) /\
  float_of_str (py "NaN") = Ok FNan /\
  float_of_str (py "") = Raise ValueError /\
  float_of_str (py "1e") = Raise ValueError /\
  float_of_str (py "1__0") = Raise ValueError /\
  float_of_str (py "0x10") = Raise ValueError /\
  float_of (PInt 9007199254740993) = Ok (FFin (9007199254740992 * 2 ^ 1074)) /\
  float_of (PInt (10 ^ 309)) = Raise OverflowError /\
  float_of PNone = Raise TypeError.
Proof. repeat split; vm_compute; reflexivity. Qed.

(** ** Strings and bytes *)

Lemma result_bind_Ok {A B} (r : result A) (k : A -> result B) (b : B) :
  result_bind r k = Ok b -> exists a, r = Ok a /\ k a = Ok b.
Proof. destruct r as [a|e]; simpl; [eauto | discriminate]. Qed.

Lemma encode_utf8_app (s t : pystr) :
  encode_utf8 (s ++ t) =
  result_bind (encode_utf8 s) (fun a => result_map (app a) (encode_utf8 t)).
Proof.
  induction s as [|c s IH]; simpl.
  - destruct (encode_utf8 t); reflexivity.
  - destruct (encode_char c) as [bs|]; [|reflexivity].
    rewrite IH. destruct (encode_utf8 s) as [a|e]; simpl; [|reflexivity].
    destruct (encode_utf8 t) as [a'|e']; simpl; [|reflexivity].
    by rewrite app_assoc.
Qed.

Lemma encode_char_scalar (c : Z) :
  is_scalar c = true -> exists bs, encode_char c = Some bs.
Proof.
  unfold is_scalar, encode_char. intros H.
  apply andb_prop in H as [H Hs]. apply andb_prop in H as [H0 H1].
  apply negb_true_iff in Hs. rewrite Hs.
  destruct (c <? 0) eqn:E0; [lia|].
  destruct (c <? 128); [eauto|]. destruct (c <? 2048); [eauto|].
  destruct (c <? 65536); [eauto|]. rewrite H1. eauto.
Qed.

Lemma encode_char_not_scalar (c : Z) :
  is_scalar c = false -> encode_char c = None.
Proof.
  unfold is_scalar, encode_char, is_surrogate. intros H.
  destruct (c <? 0) eqn:E0; [reflexivity|].
  destruct (c <? 128) eqn:E1; [lia|]. destruct (c <? 2048) eqn:E2; [lia|].
  destruct ((55296 <=? c) && (c <=? 57343)) eqn:Es; [reflexivity|].
  destruct (c <? 65536) eqn:E3; [lia|].
  destruct (c <=? 1114111) eqn:E4; [lia|reflexivity].
Qed.

(** [encode] succeeds exactly on the strings of scalar values. *)
Lemma encode_utf8_total (s : pystr) :
  forallb is_scalar s = true -> exists bs, encode_utf8 s = Ok bs.
Proof.
  induction s as [|c s IH]; simpl; [eauto|].
  intros H. apply andb_prop in H as [Hc Hs].
  destruct (encode_char_scalar c Hc) as [bs ->].
  destruct (IH Hs) as [bs' ->]. simpl. eauto.
Qed.

Lemma encode_utf8_raises (s : pystr) :
  forallb is_scalar s = false -> encode_utf8 s = Raise UnicodeEncodeError.
Proof.
  induction s as [|c s IH]; simpl; [discriminate|].
  intros H. apply andb_false_iff in H as [Hc|Hs].
  - by rewrite (encode_char_not_scalar c Hc).
  - destruct (encode_char c); [|reflexivity]. by rewrite (IH Hs).
Qed.

Lemma decode_utf8_ascii (b : bytes) :
  Forall (fun c => 0 <= c < 128) b -> decode_utf8 b = Ok b.
Proof.
  induction 1 as [|c b Hc Hb IH]; [reflexivity|].
  simpl. replace ((0 <=? c) && (c <? 128)) with true by lia.
  unfold decoded_rest. by rewrite IH.
Qed.

Lemma b64_char_ascii (i : Z) : 0 <= b64_char i < 128.
Proof.
  unfold b64_char.
  assert (Hall : Forall (fun c => 0 <= c < 128) b64_alphabet).
  { apply Forall_forall. intros c Hc.
    assert (Hb : forallb (fun c => (0 <=? c) && (c <? 128)) b64_alphabet = true)
      by (vm_compute; reflexivity).
    rewrite forallb_forall in Hb. apply list_elem_of_In in Hc.
    specialize (Hb c Hc). lia. }
  destruct (nth_in_or_default (Z.to_nat i) b64_alphabet 61) as [Hin | ->]; [|lia].
  rewrite Forall_forall in Hall. by apply Hall, list_elem_of_In.
Qed.

Lemma b64encode_ascii (b : bytes) : Forall (fun c => 0 <= c < 128) (b64encode b).
Proof.
  assert (Hp : 0 <= b64_pad < 128) by (unfold b64_pad; lia).
  assert (H : forall n (b : bytes), (length b <= n)%nat ->
            Forall (fun c => 0 <= c < 128) (b64encode b)).
  { induction n as [n IH] using lt_wf_ind. intros [|x [|y [|z r]]] Hlen; simpl.
    - constructor.
    - repeat (constructor; [first [apply b64_char_ascii | exact Hp]|]). constructor.
    - repeat (constructor; [first [apply b64_char_ascii | exact Hp]|]). constructor.
    - repeat (constructor; [apply b64_char_ascii|]).
      apply (IH (length r)); simpl in *; lia. }
  by apply (H (length b)).
Qed.

Lemma decode_b64encode (b : bytes) : decode_utf8 (b64encode b) = Ok (b64encode b).
Proof. apply decode_utf8_ascii, b64encode_ascii. Qed.

(** ** The upper-case mapping *)

Lemma assoc_Z_In {A} (c : Z) (l : list (Z * A)) (v : A) :
  assoc_Z c l = Some v -> In (c, v) l.
Proof.
  induction l as [|[k w] l IH]; simpl; [discriminate|].
  destruct (k =? c) eqn:E.
  - intros [= ->]. left. f_equal. lia.
  - intros H. right. by apply IH.
Qed.

Lemma run_points_In (lo step : Z) (n : nat) (q : Z) :
  0 <= q < Z.of_nat n -> In (lo + step * q) (run_points lo step n).
Proof.
  revert lo q. induction n as [|n IH]; intros lo q Hq; [lia|].
  simpl. destruct (Z.eq_dec q 0) as [->|Hne].
  - left. ring.
  - right. replace (lo + step * q) with ((lo + step) + step * (q - 1)) by ring.
    apply IH. lia.
Qed.

Lemma in_run_points (c : Z) (r : Z * Z * Z * Z) :
  (0 <? snd (fst r)) = true -> in_run c r = true -> In c (points_of r).
Proof.
  destruct r as [[[lo hi] step] d]. simpl. intros Hs H.
  destruct (lo <=? c) eqn:E1; [|discriminate].
  destruct (c <=? hi) eqn:E2; [|discriminate].
  assert (Hstep : 0 < step) by lia.
  assert (Hm : (c - lo) mod step = 0) by lia.
  pose proof (Z.div_mod (c - lo) step ltac:(lia)) as Hdm.
  rewrite Hm, Z.add_0_r in Hdm.
  replace c with (lo + step * ((c - lo) / step)) at 1 by lia.
  apply run_points_In. split.
  - apply Z.div_pos; lia.
  - assert ((c - lo) / step <= (hi - lo) / step) by (apply Z.div_le_mono; lia).
    assert (0 <= (hi - lo) / step) by (apply Z.div_pos; lia).
    lia.
Qed.

Lemma upper_runs_steps : forallb (fun r => 0 <? snd (fst r)) upper_runs = true.
Proof. vm_compute. reflexivity. Qed.

(** A code point that a run maps lies among the points of that run. *)
Lemma find_run_point (c : Z) (r : Z * Z * Z * Z) :
  find (in_run c) upper_runs = Some r -> In r upper_runs /\ In c (points_of r).
Proof.
  intros H. apply find_some in H as [Hin Hrun]. split; [done|].
  apply in_run_points; [|done].
  pose proof upper_runs_steps as Hs. rewrite forallb_forall in Hs. by apply Hs.
Qed.

Lemma ascii_upper_idem (c : Z) : ascii_upper (ascii_upper c) = ascii_upper c.
Proof.
  unfold ascii_upper.
  destruct ((97 <=? c) && (c <=? 122)) eqn:E; [|by rewrite E].
  by replace ((97 <=? c - 32) && (c - 32 <=? 122)) with false by lia.
Qed.

Lemma ascii_upper_bound (c : Z) : c < 128 -> ascii_upper c < 128.
Proof. unfold ascii_upper. destruct ((97 <=? c) && (c <=? 122)); lia. Qed.

Lemma upper_special_fixed :
  forallb (fun kv => forallb fixed_by_upper (snd kv)) upper_special = true.
Proof. vm_compute. reflexivity. Qed.

Lemma upper_runs_fixed :
  forallb (fun r => forallb (fun c => fixed_by_upper (c + run_delta r)) (points_of r))
          upper_runs = true.
Proof. vm_compute. reflexivity. Qed.

Lemma upper_fixed_list (l : list Z) : forallb fixed_by_upper l = true -> upper l = l.
Proof.
  induction l as [|c l IH]; [reflexivity|].
  simpl. intros H. apply andb_prop in H as [Hc Hl].
  apply bool_decide_eq_true_1 in Hc. rewrite Hc. simpl. by rewrite IH.
Qed.

(** The upper-case form of a code point is its own upper-case form. *)
Lemma to_upper_full_idem (c : Z) : upper (to_upper_full c) = to_upper_full c.
Proof.
  unfold to_upper_full at 2. unfold to_upper_full at 1.
  destruct (c <? 128) eqn:E.
  { unfold upper. simpl. unfold to_upper_full.
    replace (ascii_upper c <? 128) with true
      by (pose proof (ascii_upper_bound c); lia).
    by rewrite ascii_upper_idem. }
  destruct (assoc_Z c upper_special) as [l|] eqn:Es.
  { apply upper_fixed_list. apply assoc_Z_In in Es.
    pose proof upper_special_fixed as H. rewrite forallb_forall in H.
    apply (H (c, l) Es). }
  destruct (find (in_run c) upper_runs) as [r|] eqn:Er.
  { apply upper_fixed_list. apply find_run_point in Er as [Hr Hc].
    pose proof upper_runs_fixed as H. rewrite forallb_forall in H.
    specialize (H r Hr). rewrite forallb_forall in H.
    simpl. by rewrite (H c Hc). }
  unfold upper. simpl. unfold to_upper_full. by rewrite E, Es, Er.
Qed.

Lemma upper_app (s t : pystr) : upper (s ++ t) = upper s ++ upper t.
Proof. unfold upper. apply flat_map_app. Qed.

Lemma upper_idem (s : pystr) : upper (upper s) = upper s.
Proof.
  induction s as [|c s IH]; [reflexivity|].
  change (upper (c :: s)) with (to_upper_full c ++ upper s).
  by rewrite upper_app, to_upper_full_idem, IH.
Qed.

Lemma upper_special_scalar :
  forallb (fun kv => forallb is_scalar (snd kv)) upper_special = true.
Proof. vm_compute. reflexivity. Qed.

Lemma upper_runs_scalar :
  forallb (fun r => forallb (fun c => is_scalar (c + run_delta r)) (points_of r))
          upper_runs = true.
Proof. vm_compute. reflexivity. Qed.

Lemma to_upper_full_scalar (c : Z) :
  is_scalar c = true -> forallb is_scalar (to_upper_full c) = true.
Proof.
  intros Hc. unfold to_upper_full.
  destruct (c <? 128) eqn:E.
  { simpl. unfold is_scalar, is_surrogate, ascii_upper in *.
    destruct ((97 <=? c) && (c <=? 122)) eqn:E'; lia. }
  destruct (assoc_Z c upper_special) as [l|] eqn:Es.
  { apply assoc_Z_In in Es.
    pose proof upper_special_scalar as H. rewrite forallb_forall in H.
    apply (H (c, l) Es). }
  destruct (find (in_run c) upper_runs) as [r|] eqn:Er.
  { apply find_run_point in Er as [Hr Hp].
    pose proof upper_runs_scalar as H. rewrite forallb_forall in H.
    specialize (H r Hr). rewrite forallb_forall in H.
    simpl. by rewrite (H c Hp). }
  simpl. by rewrite Hc.
Qed.

Lemma upper_scalar (s : pystr) :
  forallb is_scalar s = true -> forallb is_scalar (upper s) = true.
Proof.
  induction s as [|c s IH]; [reflexivity|].
  simpl. intros H. apply andb_prop in H as [Hc Hs].
  rewrite forallb_app, (to_upper_full_scalar c Hc). by apply IH.
Qed.

(** ** Base64 is injective on bytes *)

Lemma b64_alphabet_NoDup : NoDup b64_alphabet.
Proof. apply (bool_decide_eq_true_1 (NoDup b64_alphabet)). vm_compute. reflexivity. Qed.

Lemma b64_alphabet_length : length b64_alphabet = 64%nat.
Proof. reflexivity. Qed.

Lemma b64_char_inj (i j : Z) :
  0 <= i < 64 -> 0 <= j < 64 -> b64_char i = b64_char j -> i = j.
Proof.
  intros Hi Hj H. unfold b64_char in H.
  pose proof b64_alphabet_NoDup as Hnd.
  apply NoDup_ListNoDup in Hnd.
  rewrite (List.NoDup_nth b64_alphabet 61) in Hnd.
  assert (Z.to_nat i = Z.to_nat j); [|lia].
  apply Hnd; [rewrite b64_alphabet_length; lia ..|done].
Qed.

Lemma b64_char_not_pad (i : Z) : 0 <= i < 64 -> b64_char i <> b64_pad.
Proof.
  intros Hi H. unfold b64_char in H.
  assert (Hin : In b64_pad b64_alphabet).
  { rewrite <- H. apply nth_In. rewrite b64_alphabet_length. lia. }
  revert Hin. apply (bool_decide_eq_true_1 (¬ In b64_pad b64_alphabet)).
  vm_compute. reflexivity.
Qed.

Lemma lor_shiftl_4 (b h : Z) :
  0 <= b < 4 -> 0 <= h < 16 -> Z.lor (Z.shiftl b 4) h = 16 * b + h.
Proof.
  intros Hb Hh.
  assert (Eb : b = 0 \/ b = 1 \/ b = 2 \/ b = 3) by lia.
  assert (Eh : h = 0 \/ h = 1 \/ h = 2 \/ h = 3 \/ h = 4 \/ h = 5 \/ h = 6 \/ h = 7 \/
               h = 8 \/ h = 9 \/ h = 10 \/ h = 11 \/ h = 12 \/ h = 13 \/ h = 14 \/ h = 15)
    by lia.
  clear Hb Hh.
  repeat (destruct Eb as [->|Eb]); try subst b;
  repeat (destruct Eh as [->|Eh]); try subst h; reflexivity.
Qed.

Lemma lor_shiftl_2 (b h : Z) :
  0 <= b < 16 -> 0 <= h < 4 -> Z.lor (Z.shiftl b 2) h = 4 * b + h.
Proof.
  intros Hb Hh.
  assert (Eh : h = 0 \/ h = 1 \/ h = 2 \/ h = 3) by lia.
  assert (Eb : b = 0 \/ b = 1 \/ b = 2 \/ b = 3 \/ b = 4 \/ b = 5 \/ b = 6 \/ b = 7 \/
               b = 8 \/ b = 9 \/ b = 10 \/ b = 11 \/ b = 12 \/ b = 13 \/ b = 14 \/ b = 15)
    by lia.
  clear Hb Hh.
  repeat (destruct Eb as [->|Eb]); try subst b;
  repeat (destruct Eh as [->|Eh]); try subst h; reflexivity.
Qed.

(** The four sextets of three bytes, as quotients and remainders. *)
Lemma sextet_1 (x : Z) : Z.shiftr x 2 = x / 4.
Proof. by rewrite Z.shiftr_div_pow2. Qed.

Lemma sextet_2 (x y : Z) :
  is_byte x -> is_byte y ->
  Z.lor (Z.shiftl (Z.land x 3) 4) (Z.shiftr y 4) = 16 * (x mod 4) + y / 16.
Proof.
  unfold is_byte. intros Hx Hy.
  change 3 with (Z.ones 2). rewrite Z.land_ones, Z.shiftr_div_pow2 by lia.
  change (2 ^ 2) with 4. change (2 ^ 4) with 16.
  apply lor_shiftl_4; lia.
Qed.

Lemma sextet_3 (y z : Z) :
  is_byte y -> is_byte z ->
  Z.lor (Z.shiftl (Z.land y 15) 2) (Z.shiftr z 6) = 4 * (y mod 16) + z / 64.
Proof.
  unfold is_byte. intros Hy Hz.
  change 15 with (Z.ones 4). rewrite Z.land_ones, Z.shiftr_div_pow2 by lia.
  change (2 ^ 4) with 16. change (2 ^ 6) with 64.
  apply lor_shiftl_2; lia.
Qed.

Lemma sextet_4 (z : Z) : Z.land z 63 = z mod 64.
Proof. change 63 with (Z.ones 6). by rewrite Z.land_ones. Qed.

Lemma sextet_2_last (x : Z) : Z.shiftl (Z.land x 3) 4 = 16 * (x mod 4).
Proof.
  change 3 with (Z.ones 2). rewrite Z.land_ones, Z.shiftl_mul_pow2 by lia.
  change (2 ^ 2) with 4. change (2 ^ 4) with 16. lia.
Qed.

Lemma sextet_3_last (y : Z) : Z.shiftl (Z.land y 15) 2 = 4 * (y mod 16).
Proof.
  change 15 with (Z.ones 4). rewrite Z.land_ones, Z.shiftl_mul_pow2 by lia.
  change (2 ^ 4) with 16. change (2 ^ 2) with 4. lia.
Qed.

Ltac b64_clash :=
  match goal with
  | H : b64_char _ = b64_pad |- _ =>
      apply b64_char_not_pad in H; [contradiction | unfold is_byte in *; lia]
  | H : b64_pad = b64_char _ |- _ =>
      symmetry in H; apply b64_char_not_pad in H;
      [contradiction | unfold is_byte in *; lia]
  end.

Ltac b64_same :=
  repeat match goal with
         | H : b64_char _ = b64_char _ |- _ =>
             apply b64_char_inj in H; [|unfold is_byte in *; lia ..]
         end.

Lemma b64encode_inj (a b : bytes) :
  Forall is_byte a -> Forall is_byte b -> b64encode a = b64encode b -> a = b.
Proof.
  assert (H : forall n (a b : bytes), (length a <= n)%nat ->
            Forall is_byte a -> Forall is_byte b ->
            b64encode a = b64encode b -> a = b).
  { clear a b. induction n as [n IH] using lt_wf_ind.
    intros a b Hlen Ha Hb.
    destruct a as [|x [|y [|z r]]]; destruct b as [|x' [|y' [|z' r']]];
      simpl; try discriminate; try reflexivity;
      repeat match goal with
             | H : Forall is_byte (_ :: _) |- _ => inversion H; subst; clear H
             end;
      intros He; injection He; clear He; intros;
      rewrite ?sextet_1, ?sextet_2, ?sextet_3, ?sextet_4,
              ?sextet_2_last, ?sextet_3_last in * by assumption;
      try b64_clash; b64_same; unfold is_byte in *.
    - f_equal. lia.
    - assert (x = x') by lia. assert (y = y') by lia. by subst.
    - assert (x = x') by lia. assert (y = y') by lia. assert (z = z') by lia.
      subst. do 3 f_equal.
      apply (IH (length r)); simpl in *; try lia; assumption. }
  intros Ha Hb. by apply (H (length a)).
Qed.

(** ** SHA-256 and HMAC *)

(** The test vectors of FIPS 180-4 (one block, two blocks) and of RFC 4231
    (test case 2). *)
Example sha256_abc :
  SHA256.hash (py "abc")
  = [186; 120; 22; 191; 143; 1; 207; 234; 65; 65; 64; 222; 93; 174; 34; 35; 176; 3; 97; 163; 150; 23; 122; 156; 180; 16; 255; 97; 242; 0; 21; 173].
Proof. vm_compute. reflexivity. Qed.

Example sha256_two_blocks :
  SHA256.hash (py "abcdbcdecdefdefgefghfghighijhijkijkljklmklmnlmnomnopnopq")
  = [36; 141; 106; 97; 210; 6; 56; 184; 229; 192; 38; 147; 12; 62; 96; 57; 163; 60; 228; 89; 100; 255; 33; 103; 246; 236; 237; 212; 25; 219; 6; 193].
Proof. vm_compute. reflexivity. Qed.

Example hmac_sha256_rfc4231_2 :
  HMAC.digest (HMAC.new (py "Jefe") (py "what do ya want for nothing?"))
  = [91; 220; 193; 70; 191; 96; 117; 78; 106; 4; 36; 38; 8; 149; 117; 199; 90; 0; 63; 8; 157; 39; 57; 131; 157; 236; 88; 185; 100; 236; 56; 67].
Proof. vm_compute. reflexivity. Qed.

Lemma be_bytes_is_byte (n : nat) (x : Z) : Forall is_byte (SHA256.be_bytes n x).
Proof.
  induction n as [|n IH]; simpl; constructor; [|done].
  unfold is_byte. lia.
Qed.

Lemma hash_is_byte (m : bytes) : Forall is_byte (SHA256.hash m).
Proof.
  unfold SHA256.hash. generalize (fold_left SHA256.compress
    (SHA256.groups 64 (length (SHA256.pad m)) (SHA256.pad m)) SHA256.H0).
  intros h. induction h as [|x h IH]; [constructor|].
  change (flat_map (SHA256.be_bytes 4) (x :: h))
    with (SHA256.be_bytes 4 x ++ flat_map (SHA256.be_bytes 4) h).
  apply Forall_app. split; [apply be_bytes_is_byte | done].
Qed.

(** What [hmac.new(key, msg, sha256).digest()] computes is the HMAC of
    RFC 2104. *)
Lemma hmac_digest_spec (key msg : bytes) :
  HMAC.digest (HMAC.new key msg) = spec_hmac_sha256 key msg.
Proof.
  unfold HMAC.digest, HMAC.new, spec_hmac_sha256.
  unfold SHA256.digest, SHA256.update, SHA256.copy, SHA256.new, SHA256.block_size.
  unfold HMAC.translate, HMAC.ljust.
  cbn [HMAC.inner HMAC.outer SHA256.fed app].
  destruct (64 <? length key)%nat; reflexivity.
Qed.

Lemma spec_hmac_is_byte (key msg : bytes) : Forall is_byte (spec_hmac_sha256 key msg).
Proof. apply hash_is_byte. Qed.

(** ** Standard output *)

Lemma add_lines_add_lines (w : World) (a b : list line) :
  add_lines (add_lines w a) b = add_lines w (a ++ b).
Proof. unfold add_lines. simpl. by rewrite app_assoc. Qed.

Lemma add_lines_nil (w : World) : add_lines w [] = w.
Proof. destruct w. unfold add_lines. simpl. by rewrite app_nil_r. Qed.

Lemma bind_run {A B} (m : M A) (k : A -> M B) (w : World) :
  bind m k w = match m w with
               | (Ok a, w') => k a w'
               | (Raise e, w') => (Raise e, w')
               end.
Proof. reflexivity. Qed.

Lemma print_run (l : line) (w : World) :
  printable l = true -> print l w = (Ok tt, add_lines w [l]).
Proof. unfold print. by intros ->. Qed.

Lemma print_raise (l : line) (w : World) :
  printable l = false -> print l w = (Raise UnicodeEncodeError, w).
Proof. unfold print. by intros ->. Qed.

Lemma encode_utf8_exn (s : pystr) (e : exn) :
  encode_utf8 s = Raise e -> e = UnicodeEncodeError.
Proof.
  revert e. induction s as [|c s IH]; intros e; simpl; [discriminate|].
  destruct (encode_char c); [|by intros [= <-]].
  destruct (encode_utf8 s) as [bs|e']; simpl; [discriminate|].
  intros [= <-]. by apply IH.
Qed.

Lemma writable_scalar (s : pystr) : writable (PStr s) = forallb is_scalar s.
Proof.
  simpl. destruct (forallb is_scalar s) eqn:E.
  - by destruct (encode_utf8_total s E) as [bs ->].
  - by rewrite (encode_utf8_raises s E).
Qed.

Lemma ascii_is_scalar (s : pystr) :
  Forall (fun c => 0 <= c < 128) s -> forallb is_scalar s = true.
Proof.
  induction 1 as [|c s Hc Hs IH]; [reflexivity|].
  simpl. rewrite IH, andb_true_r. unfold is_scalar, is_surrogate. lia.
Qed.

Lemma writable_b64encode (b : bytes) : writable (PStr (b64encode b)) = true.
Proof. rewrite writable_scalar. apply ascii_is_scalar, b64encode_ascii. Qed.

(** ** The signer *)

(** Each of the three signers returns [spec_signature]; the two methods
    leave the world as it is. *)
Lemma basic_signature_run ak secret pp bu ts m p b w :
  okx_account_balance._generate_signature
    (okx_account_balance.MkClient ak secret pp bu) ts m p b w
  = (spec_signature secret ts m p b, w).
Proof.
  unfold okx_account_balance._generate_signature, spec_signature, bind, lift.
  cbn [okx_account_balance.secret_key].
  destruct (encode_utf8 secret) as [key|e]; [|reflexivity]. simpl.
  destruct (encode_utf8 (ts ++ upper m ++ p ++ b)) as [msg|e]; [|reflexivity]. simpl.
  by rewrite decode_b64encode, hmac_digest_spec.
Qed.

Lemma secure_signature_run ak secret pp bu ts m p b w :
  okx_balance_secure._generate_signature
    (okx_balance_secure.MkClient ak secret pp bu) ts m p b w
  = (spec_signature secret ts m p b, w).
Proof.
  unfold okx_balance_secure._generate_signature, spec_signature, bind, lift.
  cbn [okx_balance_secure.secret_key].
  destruct (encode_utf8 secret) as [key|e]; [|reflexivity]. simpl.
  destruct (encode_utf8 (ts ++ upper m ++ p ++ b)) as [msg|e]; [|reflexivity]. simpl.
  by rewrite decode_b64encode, hmac_digest_spec.
Qed.

Lemma test_signature_run secret ts m p b w :
  fst (test_signature.generate_signature ts m p b secret w)
  = spec_signature secret ts m p b.
Proof.
  unfold test_signature.generate_signature, spec_signature. cbv zeta.
  rewrite bind_run. unfold print, printable. cbn [forallb fragment_ok andb].
  destruct (writable (PStr (ts ++ upper m ++ p ++ b))) eqn:Ew;
    cbn [writable] in Ew;
    destruct (encode_utf8 (ts ++ upper m ++ p ++ b)) as [msg|e] eqn:Emsg;
    try discriminate.
  - cbv beta iota. unfold bind, lift.
    destruct (encode_utf8 secret) as [key|e]; [|reflexivity]. cbn [result_bind].
    rewrite decode_b64encode, hmac_digest_spec. cbv beta iota.
    by rewrite writable_b64encode.
  - rewrite (encode_utf8_exn _ _ Emsg). cbv beta iota. cbn [andb fst].
    destruct (encode_utf8 secret) as [key|e'] eqn:Ekey; [reflexivity|].
    by rewrite (encode_utf8_exn _ _ Ekey).
Qed.

Lemma spec_signature_upper secret ts m p b :
  spec_signature secret ts (upper m) p b = spec_signature secret ts m p b.
Proof. unfold spec_signature. by rewrite upper_idem. Qed.

Lemma spec_signature_scalar secret ts m p b :
  forallb is_scalar secret = true -> forallb is_scalar ts = true ->
  forallb is_scalar m = true -> forallb is_scalar p = true ->
  forallb is_scalar b = true ->
  exists key msg,
    encode_utf8 secret = Ok key /\
    encode_utf8 (ts ++ upper m ++ p ++ b) = Ok msg /\
    spec_signature secret ts m p b = Ok (b64encode (spec_hmac_sha256 key msg)).
Proof.
  intros Hs Ht Hm Hp Hb.
  destruct (encode_utf8_total secret Hs) as [key Hkey].
  destruct (encode_utf8_total (ts ++ upper m ++ p ++ b)) as [msg Hmsg].
  { rewrite !forallb_app, Ht, Hp, Hb, (upper_scalar m Hm). reflexivity. }
  exists key, msg. split; [done|]. split; [done|].
  unfold spec_signature. by rewrite Hkey, Hmsg.
Qed.

(** The worked example of section 8, checked against the value CPython's
    [hmac], [hashlib] and [base64] give. *)
Example worked_example_signature :
  spec_signature (py "22582BD0CFF14C41EDBF1AB98506286D")
    (py "2020-12-08T09:08:57.715Z") (py "GET") (py "/api/v5/account/balance") (py "")
  = Ok (py "AkD5YszBhggtIyjDlmTy/9PpNVntel+1Lff8wh0qpQw=").
Proof. vm_compute. reflexivity. Qed.

Example worked_example_signature_btc :
  spec_signature (py "22582BD0CFF14C41EDBF1AB98506286D")
    (py "2020-12-08T09:08:57.715Z") (py "GET") (py "/api/v5/account/balance?ccy=BTC")
    (py "")
  = Ok (py "HiZhvSfMtWJA3uUIVXV3a/bSXNPCWvYFXoGCVS8V4zY=").
Proof. vm_compute. reflexivity. Qed.

(** At the timestamp of the worked example the bare path and the path with
    [?ccy=BTC] are signed differently. *)
Example worked_example_query_changes_signature :
  spec_signature (py "22582BD0CFF14C41EDBF1AB98506286D")
    (py "2020-12-08T09:08:57.715Z") (py "GET") (py "/api/v5/account/balance?ccy=BTC")
    (py "")
  <> spec_signature (py "22582BD0CFF14C41EDBF1AB98506286D")
       (py "2020-12-08T09:08:57.715Z") (py "GET") (py "/api/v5/account/balance") (py "").
Proof. rewrite worked_example_signature, worked_example_signature_btc. discriminate. Qed.

(** C1 fails as stated: a secret that holds a lone surrogate (what
    [os.getenv] gives for an undecodable byte) has no UTF-8 form, and the
    signer raises [UnicodeEncodeError] where the claim has it return a
    signature. *)
Lemma signer_raises_on_surrogate_secret :
  fst (okx_account_balance._generate_signature
         (okx_account_balance.MkClient (py "key") [0xDC80] (py "pass")
                                       (py "https://www.okx.com"))
         (py "2020-12-08T09:08:57.715Z") (py "GET") (py "/api/v5/account/balance")
         (py "") world0)
  = Raise UnicodeEncodeError.
Proof. vm_compute. reflexivity. Qed.

(** C1, amended: for every secret, timestamp, method, path and body made of
    scalar values (no surrogate code point), the signer returns the base64
    encoding of the raw HMAC-SHA256 digest, keyed by the UTF-8 bytes of the
    secret, of the UTF-8 bytes of timestamp + uppercased method + path + body
    joined without delimiter; so do the method of the client and the function
    of the test file. *)
Theorem signer_returns_b64_hmac (secret ts m p b : pystr) :
  forallb is_scalar secret = true -> forallb is_scalar ts = true ->
  forallb is_scalar m = true -> forallb is_scalar p = true ->
  forallb is_scalar b = true ->
  exists key msg,
    encode_utf8 secret = Ok key /\
    encode_utf8 (ts ++ upper m ++ p ++ b) = Ok msg /\
    (forall ak pp bu w,
       okx_account_balance._generate_signature
         (okx_account_balance.MkClient ak secret pp bu) ts m p b w
       = (Ok (b64encode (spec_hmac_sha256 key msg)), w)) /\
    (forall w,
       fst (test_signature.generate_signature ts m p b secret w)
       = Ok (b64encode (spec_hmac_sha256 key msg))).
Proof.
  intros Hs Ht Hm Hp Hb.
  destruct (spec_signature_scalar secret ts m p b Hs Ht Hm Hp Hb)
    as (key & msg & Hkey & Hmsg & Hsig).
  exists key, msg. repeat split; [done | done | |].
  - intros. by rewrite basic_signature_run, Hsig.
  - intros. by rewrite test_signature_run, Hsig.
Qed.

(** The worked example, with the method in lower case. *)
Lemma signer_returns_b64_hmac_witness :
  exists key msg,
    encode_utf8 (py "22582BD0CFF14C41EDBF1AB98506286D") = Ok key /\
    encode_utf8 (py "2020-12-08T09:08:57.715Z" ++ upper (py "get")
                 ++ py "/api/v5/account/balance" ++ py "") = Ok msg /\
    (forall ak pp bu w,
       okx_account_balance._generate_signature
         (okx_account_balance.MkClient ak (py "22582BD0CFF14C41EDBF1AB98506286D") pp bu)
         (py "2020-12-08T09:08:57.715Z") (py "get") (py "/api/v5/account/balance")
         (py "") w
       = (Ok (b64encode (spec_hmac_sha256 key msg)), w)) /\
    (forall w,
       fst (test_signature.generate_signature
              (py "2020-12-08T09:08:57.715Z") (py "get") (py "/api/v5/account/balance")
              (py "") (py "22582BD0CFF14C41EDBF1AB98506286D") w)
       = Ok (b64encode (spec_hmac_sha256 key msg))).
Proof.
  apply (signer_returns_b64_hmac (py "22582BD0CFF14C41EDBF1AB98506286D")
           (py "2020-12-08T09:08:57.715Z") (py "get") (py "/api/v5/account/balance")
           (py "")); reflexivity.
Defined.

(** C2: the signature is a function of (secret, timestamp, method, path,
    body) alone: whatever the other fields of the client and whatever the
    world (what was printed, what time it is, what was sent), two runs return
    the same result, and each leaves its world as it found it. *)
Theorem signature_is_pure (secret ts m p b : pystr) :
  forall ak1 pp1 bu1 ak2 pp2 bu2 (w1 w2 : World),
    let run1 := okx_balance_secure._generate_signature
                  (okx_balance_secure.MkClient ak1 secret pp1 bu1) ts m p b w1 in
    let run2 := okx_balance_secure._generate_signature
                  (okx_balance_secure.MkClient ak2 secret pp2 bu2) ts m p b w2 in
    fst run1 = fst run2 /\ snd run1 = w1 /\ snd run2 = w2.
Proof. intros. subst run1 run2. by rewrite !secure_signature_run. Qed.

(** C4: the signer's result for a method [m] is its result for the
    upper-case form of [m], in both clients, whatever the inputs; and where
    the five strings have UTF-8 forms the method is not refused in any case
    of its letters: the signature returned is the base64 form of the HMAC
    of timestamp + upper-case method + path + body, the method put in upper
    case before the concatenation. *)
Theorem method_is_uppercased (secret ts m p b : pystr) :
  (forall ak pp bu (w : World),
     okx_account_balance._generate_signature
       (okx_account_balance.MkClient ak secret pp bu) ts m p b w
     = okx_account_balance._generate_signature
         (okx_account_balance.MkClient ak secret pp bu) ts (upper m) p b w
     /\
     okx_balance_secure._generate_signature
       (okx_balance_secure.MkClient ak secret pp bu) ts m p b w
     = okx_balance_secure._generate_signature
         (okx_balance_secure.MkClient ak secret pp bu) ts (upper m) p b w) /\
  (forallb is_scalar secret = true -> forallb is_scalar ts = true ->
   forallb is_scalar m = true -> forallb is_scalar p = true ->
   forallb is_scalar b = true ->
   exists key msg,
     encode_utf8 secret = Ok key /\
     encode_utf8 (ts ++ upper m ++ p ++ b) = Ok msg /\
     forall ak pp bu (w : World),
       okx_account_balance._generate_signature
         (okx_account_balance.MkClient ak secret pp bu) ts m p b w
       = (Ok (b64encode (spec_hmac_sha256 key msg)), w) /\
       okx_balance_secure._generate_signature
         (okx_balance_secure.MkClient ak secret pp bu) ts m p b w
       = (Ok (b64encode (spec_hmac_sha256 key msg)), w)).
Proof.
  split.
  - intros. rewrite !basic_signature_run, !secure_signature_run.
    by rewrite spec_signature_upper.
  - intros Hs Ht Hm Hp Hb.
    destruct (spec_signature_scalar secret ts m p b Hs Ht Hm Hp Hb)
      as (key & msg & Hkey & Hmsg & Hsig).
    exists key, msg. split_and!; [done | done |].
    intros. by rewrite basic_signature_run, secure_signature_run, Hsig.
Qed.

(** The method [get] of the worked example, in lower case, is signed as
    [GET]. *)
Lemma method_is_uppercased_witness :
  exists key msg,
    encode_utf8 (py "22582BD0CFF14C41EDBF1AB98506286D") = Ok key /\
    encode_utf8 (py "2020-12-08T09:08:57.715Z" ++ upper (py "get")
                 ++ py "/api/v5/account/balance" ++ py "") = Ok msg /\
    forall ak pp bu (w : World),
      okx_account_balance._generate_signature
        (okx_account_balance.MkClient ak (py "22582BD0CFF14C41EDBF1AB98506286D") pp bu)
        (py "2020-12-08T09:08:57.715Z") (py "get") (py "/api/v5/account/balance")
        (py "") w
      = (Ok (b64encode (spec_hmac_sha256 key msg)), w) /\
      okx_balance_secure._generate_signature
        (okx_balance_secure.MkClient ak (py "22582BD0CFF14C41EDBF1AB98506286D") pp bu)
        (py "2020-12-08T09:08:57.715Z") (py "get") (py "/api/v5/account/balance")
        (py "") w
      = (Ok (b64encode (spec_hmac_sha256 key msg)), w).
Proof.
  apply (proj2 (method_is_uppercased (py "22582BD0CFF14C41EDBF1AB98506286D")
                  (py "2020-12-08T09:08:57.715Z") (py "get")
                  (py "/api/v5/account/balance") (py ""))); reflexivity.
Defined.

(** In lower case or in upper case, the method of the worked example gets
    the signature of the documentation. *)
Example lower_case_method_signature :
  spec_signature (py "22582BD0CFF14C41EDBF1AB98506286D")
    (py "2020-12-08T09:08:57.715Z") (py "get") (py "/api/v5/account/balance") (py "")
  = Ok (py "AkD5YszBhggtIyjDlmTy/9PpNVntel+1Lff8wh0qpQw=").
Proof. vm_compute. reflexivity. Qed.

(** C10: the three implementations return the same result on every
    (secret, timestamp, method, path, body), in any worlds. *)
Theorem three_signers_agree (secret ts m p b : pystr) :
  forall ak1 pp1 bu1 ak2 pp2 bu2 (w1 w2 w3 : World),
    fst (okx_account_balance._generate_signature
           (okx_account_balance.MkClient ak1 secret pp1 bu1) ts m p b w1)
    = fst (okx_balance_secure._generate_signature
             (okx_balance_secure.MkClient ak2 secret pp2 bu2) ts m p b w2)
    /\
    fst (okx_balance_secure._generate_signature
           (okx_balance_secure.MkClient ak2 secret pp2 bu2) ts m p b w2)
    = fst (test_signature.generate_signature ts m p b secret w3).
Proof.
  intros. by rewrite basic_signature_run, secure_signature_run, test_signature_run.
Qed.

(** ** One changed byte *)

Lemma one_byte_apart_neq (a b : bytes) : one_byte_apart a b = true -> a <> b.
Proof.
  revert b. induction a as [|x a IH]; intros [|y b]; simpl; try discriminate.
  destruct (x =? y) eqn:E.
  - intros H [= _ Hab]. by apply (IH b).
  - intros _ [= Hxy _]. lia.
Qed.

Lemma one_byte_apart_prefix (pre a b : bytes) :
  one_byte_apart (pre ++ a) (pre ++ b) = one_byte_apart a b.
Proof. induction pre as [|x pre IH]; simpl; [done|]. by rewrite Z.eqb_refl. Qed.

Lemma one_byte_apart_suffix (a b post : bytes) :
  one_byte_apart a b = true -> one_byte_apart (a ++ post) (b ++ post) = true.
Proof.
  revert b. induction a as [|x a IH]; intros [|y b]; simpl; try discriminate.
  destruct (x =? y); [apply IH|].
  intros H. apply bool_decide_eq_true_1 in H. subst. by apply bool_decide_eq_true_2.
Qed.

Lemma one_byte_apart_middle (pre a b post : bytes) :
  one_byte_apart a b = true ->
  one_byte_apart (pre ++ a ++ post) (pre ++ b ++ post) = true.
Proof. intros H. rewrite one_byte_apart_prefix. by apply one_byte_apart_suffix. Qed.

Lemma encode_utf8_app_Ok (s t : pystr) (a b : bytes) :
  encode_utf8 s = Ok a -> encode_utf8 t = Ok b -> encode_utf8 (s ++ t) = Ok (a ++ b).
Proof. intros Hs Ht. by rewrite encode_utf8_app, Hs, Ht. Qed.

Lemma str_one_byte_apart_Ok (s t : pystr) (a b : bytes) :
  encode_utf8 s = Ok a -> encode_utf8 t = Ok b ->
  str_one_byte_apart s t = true -> one_byte_apart a b = true.
Proof. unfold str_one_byte_apart. by intros -> ->. Qed.

(** C3 fails as stated: the methods [gET] and [GET] differ in exactly one
    byte, a change of case, and are signed alike. *)
Lemma method_case_change_keeps_signature :
  str_one_byte_apart (py "gET") (py "GET") = true /\
  fst (okx_account_balance._generate_signature
         (okx_account_balance.MkClient (py "key") (py "22582BD0CFF14C41EDBF1AB98506286D")
                                       (py "pass") (py "https://www.okx.com"))
         (py "2020-12-08T09:08:57.715Z") (py "gET") (py "/api/v5/account/balance")
         (py "") world0)
  = fst (okx_account_balance._generate_signature
           (okx_account_balance.MkClient (py "key") (py "22582BD0CFF14C41EDBF1AB98506286D")
                                         (py "pass") (py "https://www.okx.com"))
           (py "2020-12-08T09:08:57.715Z") (py "GET") (py "/api/v5/account/balance")
           (py "") world0).
Proof.
  split; [reflexivity|].
  rewrite !basic_signature_run. simpl.
  rewrite <- (spec_signature_upper _ _ (py "gET")).
  reflexivity.
Qed.

Lemma spec_hmac_outer (key msg : bytes) :
  spec_hmac_sha256 key msg = SHA256.hash (hmac_outer key msg).
Proof. reflexivity. Qed.

(** Two messages of one HMAC digest give a collision of SHA-256, on the
    inner or on the outer input. *)
Lemma hmac_collision (key msg msg' : bytes) :
  msg <> msg' ->
  spec_hmac_sha256 key msg = spec_hmac_sha256 key msg' ->
  sha256_collision (hmac_inner key msg) (hmac_inner key msg') \/
  sha256_collision (hmac_outer key msg) (hmac_outer key msg').
Proof.
  intros Hne Heq. rewrite !spec_hmac_outer in Heq.
  destruct (decide (hmac_outer key msg = hmac_outer key msg')) as [Hout|Hout].
  - left. split.
    + unfold hmac_inner. intros H. by apply app_inv_head in H.
    + unfold hmac_outer in Hout. by apply app_inv_head in Hout.
  - right. by split.
Qed.

Lemma same_upper_same_signature (secret ts m m' p b : pystr) :
  upper m = upper m' -> spec_signature secret ts m p b = spec_signature secret ts m' p b.
Proof. unfold spec_signature. by intros ->. Qed.

(** C3, amended: when two inputs differ in exactly one byte of the timestamp,
    of the path, of the body or of the upper-case form of the method (all
    strings with UTF-8 forms, the other fields equal), the signer returns a
    signature for each, the two pre-hash byte strings differ in exactly one
    byte, and the two signatures differ, unless the pair is a collision of
    SHA-256 on the inner or on the outer input of the HMAC.  Two methods of
    one upper-case form, such as two that differ in the case of a letter,
    get the same signature. *)
Theorem one_byte_change_changes_signature (secret ts m p b ts' m' p' b' : pystr) :
  forallb is_scalar secret = true ->
  forallb is_scalar ts = true -> forallb is_scalar m = true ->
  forallb is_scalar p = true -> forallb is_scalar b = true ->
  forallb is_scalar ts' = true -> forallb is_scalar m' = true ->
  forallb is_scalar p' = true -> forallb is_scalar b' = true ->
  one_field_one_byte ts m p b ts' m' p' b' ->
  (exists key msg msg',
     encode_utf8 secret = Ok key /\
     encode_utf8 (ts ++ upper m ++ p ++ b) = Ok msg /\
     encode_utf8 (ts' ++ upper m' ++ p' ++ b') = Ok msg' /\
     one_byte_apart msg msg' = true /\
     forall ak pp bu (w w' : World),
       exists sig sig',
         okx_account_balance._generate_signature
           (okx_account_balance.MkClient ak secret pp bu) ts m p b w = (Ok sig, w) /\
         okx_account_balance._generate_signature
           (okx_account_balance.MkClient ak secret pp bu) ts' m' p' b' w' = (Ok sig', w') /\
         (sig <> sig' \/
          sha256_collision (hmac_inner key msg) (hmac_inner key msg') \/
          sha256_collision (hmac_outer key msg) (hmac_outer key msg'))) /\
  (forall n n' ak pp bu (w : World),
     upper n = upper n' ->
     okx_account_balance._generate_signature
       (okx_account_balance.MkClient ak secret pp bu) ts n p b w
     = okx_account_balance._generate_signature
         (okx_account_balance.MkClient ak secret pp bu) ts n' p b w).
Proof.
  intros Hs Ht Hm Hp Hb Ht' Hm' Hp' Hb' Hone.
  split; [|intros; rewrite !basic_signature_run; f_equal;
           by apply same_upper_same_signature].
  destruct (encode_utf8_total secret Hs) as [key Hkey].
  destruct (encode_utf8_total ts Ht) as [ets Hets].
  destruct (encode_utf8_total (upper m) (upper_scalar m Hm)) as [em Hem].
  destruct (encode_utf8_total p Hp) as [ep Hep].
  destruct (encode_utf8_total b Hb) as [eb Heb].
  destruct (encode_utf8_total ts' Ht') as [ets' Hets'].
  destruct (encode_utf8_total (upper m') (upper_scalar m' Hm')) as [em' Hem'].
  destruct (encode_utf8_total p' Hp') as [ep' Hep'].
  destruct (encode_utf8_total b' Hb') as [eb' Heb'].
  assert (Hmsg : encode_utf8 (ts ++ upper m ++ p ++ b) = Ok (ets ++ em ++ ep ++ eb))
    by (repeat apply encode_utf8_app_Ok; assumption).
  assert (Hmsg' : encode_utf8 (ts' ++ upper m' ++ p' ++ b') = Ok (ets' ++ em' ++ ep' ++ eb'))
    by (repeat apply encode_utf8_app_Ok; assumption).
  exists key, (ets ++ em ++ ep ++ eb), (ets' ++ em' ++ ep' ++ eb').
  split; [done|]. split; [done|]. split; [done|].
  assert (Hapart : one_byte_apart (ets ++ em ++ ep ++ eb) (ets' ++ em' ++ ep' ++ eb') = true).
  { destruct Hone as [(H1 & E2 & E3 & E4) | [(E1 & H2 & E3 & E4) |
                      [(E1 & E2 & H3 & E4) | (E1 & E2 & E3 & H4)]]].
    + rewrite E2 in Hem. subst p' b'.
      assert (em = em') by congruence. assert (ep = ep') by congruence.
      assert (eb = eb') by congruence. subst.
      apply (one_byte_apart_middle []). simpl.
      by apply (str_one_byte_apart_Ok ts ts').
    + subst ts' p' b'.
      assert (ets = ets') by congruence. assert (ep = ep') by congruence.
      assert (eb = eb') by congruence. subst.
      apply one_byte_apart_middle.
      by apply (str_one_byte_apart_Ok (upper m) (upper m')).
    + rewrite E2 in Hem. subst ts' b'.
      assert (ets = ets') by congruence. assert (em = em') by congruence.
      assert (eb = eb') by congruence. subst.
      rewrite !(app_assoc ets'). apply one_byte_apart_middle.
      by apply (str_one_byte_apart_Ok p p').
    + rewrite E2 in Hem. subst ts' p'.
      assert (ets = ets') by congruence. assert (em = em') by congruence.
      assert (ep = ep') by congruence. subst.
      rewrite !(app_assoc ets'), !(app_assoc (ets' ++ em')).
      rewrite <- (app_nil_r eb), <- (app_nil_r eb').
      apply one_byte_apart_middle.
      by apply (str_one_byte_apart_Ok b b'). }
  split; [exact Hapart|].
  intros ak pp bu w w'. rewrite !basic_signature_run.
  unfold spec_signature. rewrite Hkey, Hmsg, Hmsg'. cbn [result_bind].
  eexists _, _. split; [reflexivity|]. split; [reflexivity|].
  set (msg := ets ++ em ++ ep ++ eb) in *.
  set (msg' := ets' ++ em' ++ ep' ++ eb') in *.
  destruct (decide (spec_hmac_sha256 key msg = spec_hmac_sha256 key msg')) as [Heq|Hne].
  - right. apply hmac_collision; [by apply one_byte_apart_neq | exact Heq].
  - left. intros Hsig. apply Hne.
    apply b64encode_inj; [apply spec_hmac_is_byte .. | exact Hsig].
Qed.

(** Two timestamps one millisecond, and one byte, apart. *)
Lemma one_byte_change_changes_signature_witness :
  (exists key msg msg',
     encode_utf8 (py "22582BD0CFF14C41EDBF1AB98506286D") = Ok key /\
     encode_utf8 (py "2020-12-08T09:08:57.715Z" ++ upper (py "GET")
                  ++ py "/api/v5/account/balance" ++ py "") = Ok msg /\
     encode_utf8 (py "2020-12-08T09:08:57.716Z" ++ upper (py "get")
                  ++ py "/api/v5/account/balance" ++ py "") = Ok msg' /\
     one_byte_apart msg msg' = true /\
     forall ak pp bu (w w' : World),
       exists sig sig',
         okx_account_balance._generate_signature
           (okx_account_balance.MkClient ak (py "22582BD0CFF14C41EDBF1AB98506286D") pp bu)
           (py "2020-12-08T09:08:57.715Z") (py "GET") (py "/api/v5/account/balance")
           (py "") w = (Ok sig, w) /\
         okx_account_balance._generate_signature
           (okx_account_balance.MkClient ak (py "22582BD0CFF14C41EDBF1AB98506286D") pp bu)
           (py "2020-12-08T09:08:57.716Z") (py "get") (py "/api/v5/account/balance")
           (py "") w' = (Ok sig', w') /\
         (sig <> sig' \/
          sha256_collision (hmac_inner key msg) (hmac_inner key msg') \/
          sha256_collision (hmac_outer key msg) (hmac_outer key msg'))) /\
  (forall n n' ak pp bu (w : World),
     upper n = upper n' ->
     okx_account_balance._generate_signature
       (okx_account_balance.MkClient ak (py "22582BD0CFF14C41EDBF1AB98506286D") pp bu)
       (py "2020-12-08T09:08:57.715Z") n (py "/api/v5/account/balance") (py "") w
     = okx_account_balance._generate_signature
         (okx_account_balance.MkClient ak (py "22582BD0CFF14C41EDBF1AB98506286D") pp bu)
         (py "2020-12-08T09:08:57.715Z") n' (py "/api/v5/account/balance") (py "") w).
Proof.
  apply (one_byte_change_changes_signature (py "22582BD0CFF14C41EDBF1AB98506286D")
           (py "2020-12-08T09:08:57.715Z") (py "GET") (py "/api/v5/account/balance")
           (py "")
           (py "2020-12-08T09:08:57.716Z") (py "get") (py "/api/v5/account/balance")
           (py "")); try reflexivity.
  left. repeat split; reflexivity.
Defined.

(** At the worked example the two signatures are computed, and differ. *)
Example one_millisecond_changes_signature :
  spec_signature (py "22582BD0CFF14C41EDBF1AB98506286D")
    (py "2020-12-08T09:08:57.715Z") (py "GET") (py "/api/v5/account/balance") (py "")
  <> spec_signature (py "22582BD0CFF14C41EDBF1AB98506286D")
       (py "2020-12-08T09:08:57.716Z") (py "get") (py "/api/v5/account/balance") (py "").
Proof. vm_compute. discriminate. Qed.

(** ** Header assembly *)

Lemma spec_headers_fields (ak sig ts pp : pystr) :
  has_five_fields (spec_headers ak sig ts pp) ak sig ts pp.
Proof.
  unfold has_five_fields, spec_headers.
  split; [|split_and!; by simplify_map_eq].
  rewrite !map_size_insert_None; [reflexivity | by simplify_map_eq ..].
Qed.

Lemma basic_headers_run ak secret pp bu ts m p b w :
  okx_account_balance._get_headers
    (okx_account_balance.MkClient ak secret pp bu) ts m p b w
  = (result_map (fun sig => spec_headers ak sig ts pp) (spec_signature secret ts m p b), w).
Proof.
  unfold okx_account_balance._get_headers, bind.
  rewrite basic_signature_run.
  destruct (spec_signature secret ts m p b); reflexivity.
Qed.

Lemma secure_headers_run ak secret pp bu ts m p b w :
  okx_balance_secure._get_headers
    (okx_balance_secure.MkClient ak secret pp bu) ts m p b w
  = (result_map (fun sig => spec_headers ak sig ts pp) (spec_signature secret ts m p b), w).
Proof.
  unfold okx_balance_secure._get_headers, bind.
  rewrite secure_signature_run.
  destruct (spec_signature secret ts m p b); reflexivity.
Qed.

(** C8 fails as stated: with a method that holds a lone surrogate the
    signature cannot be computed, and header assembly raises
    [UnicodeEncodeError] where the claim has it return five fields. *)
Lemma header_assembly_raises_on_surrogate :
  fst (okx_balance_secure._get_headers
         (okx_balance_secure.MkClient (py "key") (py "22582BD0CFF14C41EDBF1AB98506286D")
                                      (py "pass") (py "https://www.okx.com"))
         (py "2020-12-08T09:08:57.715Z") [0xD800] (py "/api/v5/account/balance")
         (py "") world0)
  = Raise UnicodeEncodeError.
Proof. vm_compute. reflexivity. Qed.

(** C8, amended: for every api_key, passphrase, timestamp, method, path and
    body for which the signer returns a signature, header assembly returns a
    mapping of exactly five fields: OK-ACCESS-KEY is the api_key,
    OK-ACCESS-SIGN the computed signature, OK-ACCESS-TIMESTAMP the given
    timestamp, OK-ACCESS-PASSPHRASE the passphrase and Content-Type
    application/json; when the signer raises, header assembly raises the
    same exception; either way the world is left as it was.  Both clients do
    so. *)
Theorem header_assembly_five_fields (ak secret pp bu ts m p b : pystr) (w : World) :
  let basic := okx_account_balance.MkClient ak secret pp bu in
  let secure := okx_balance_secure.MkClient ak secret pp bu in
  (forall sig,
     fst (okx_account_balance._generate_signature basic ts m p b w) = Ok sig ->
     exists h, okx_account_balance._get_headers basic ts m p b w = (Ok h, w) /\
               has_five_fields h ak sig ts pp) /\
  (forall sig,
     fst (okx_balance_secure._generate_signature secure ts m p b w) = Ok sig ->
     exists h, okx_balance_secure._get_headers secure ts m p b w = (Ok h, w) /\
               has_five_fields h ak sig ts pp) /\
  (forall e,
     fst (okx_account_balance._generate_signature basic ts m p b w) = Raise e ->
     okx_account_balance._get_headers basic ts m p b w = (Raise e, w)) /\
  (forall e,
     fst (okx_balance_secure._generate_signature secure ts m p b w) = Raise e ->
     okx_balance_secure._get_headers secure ts m p b w = (Raise e, w)).
Proof.
  intros basic secure. subst basic secure.
  rewrite basic_signature_run, secure_signature_run.
  rewrite basic_headers_run, secure_headers_run. simpl.
  split_and!.
  - intros sig ->. eexists. split; [reflexivity|]. apply spec_headers_fields.
  - intros sig ->. eexists. split; [reflexivity|]. apply spec_headers_fields.
  - by intros e ->.
  - by intros e ->.
Qed.

(** The headers of the worked example. *)
Lemma header_assembly_five_fields_witness :
  exists h,
    okx_balance_secure._get_headers
      (okx_balance_secure.MkClient (py "key") (py "22582BD0CFF14C41EDBF1AB98506286D")
                                   (py "pass") (py "https://www.okx.com"))
      (py "2020-12-08T09:08:57.715Z") (py "GET") (py "/api/v5/account/balance")
      (py "") world0
    = (Ok h, world0) /\
    has_five_fields h (py "key") (py "AkD5YszBhggtIyjDlmTy/9PpNVntel+1Lff8wh0qpQw=")
                    (py "2020-12-08T09:08:57.715Z") (py "pass").
Proof.
  apply (proj1 (proj2 (header_assembly_five_fields
           (py "key") (py "22582BD0CFF14C41EDBF1AB98506286D") (py "pass")
           (py "https://www.okx.com") (py "2020-12-08T09:08:57.715Z") (py "GET")
           (py "/api/v5/account/balance") (py "") world0))).
  vm_compute. reflexivity.
Defined.

(** ** The balance request *)

Lemma basic_balance_run ak secret pp bu ccy w :
  let ts := drop_last3 (clock w (ticks w)) ++ py "Z" in
  let path := spec_request_path ccy in
  let w1 := MkWorld (stdout w) (S (ticks w)) (clock w) (network w) (sent w) in
  okx_account_balance.get_account_balance
    (okx_account_balance.MkClient ak secret pp bu) ccy w
  = match spec_signature secret ts (py "GET") path (py "") with
    | Raise e => (Raise e, w1)
    | Ok sig =>
        let r := Request (bu ++ path) (spec_headers ak sig ts pp) 30 in
        (balance_result (network w r),
         MkWorld (stdout w) (S (ticks w)) (clock w) (network w) (sent w ++ [r]))
    end.
Proof.
  intros ts path w1.
  unfold okx_account_balance.get_account_balance, bind.
  unfold okx_account_balance._get_timestamp, bind, utcnow_strftime, ret.
  assert (Hpath : match ccy with
                  | Some (c :: cs) =>
                      py "/api/v5/account/balance" ++ (py "?ccy=" ++ c :: cs)
                  | _ => py "/api/v5/account/balance"
                  end = path).
  { subst path. destruct ccy as [[|c cs]|]; reflexivity. }
  rewrite Hpath, basic_headers_run. fold ts.
  destruct (spec_signature secret ts (py "GET") path (py "")) as [sig|e];
    [|reflexivity].
  simpl. unfold requests_get_json. simpl.
  destruct (network w _); reflexivity.
Qed.

Lemma secure_balance_run ak secret pp bu ccy w :
  let ts := drop_last3 (clock w (ticks w)) ++ py "Z" in
  let path := spec_request_path ccy in
  let w1 := MkWorld (stdout w) (S (ticks w)) (clock w) (network w) (sent w) in
  okx_balance_secure.get_account_balance
    (okx_balance_secure.MkClient ak secret pp bu) ccy w
  = match spec_signature secret ts (py "GET") path (py "") with
    | Raise e => (Raise e, w1)
    | Ok sig =>
        let r := Request (bu ++ path) (spec_headers ak sig ts pp) 30 in
        (balance_result (network w r),
         MkWorld (stdout w) (S (ticks w)) (clock w) (network w) (sent w ++ [r]))
    end.
Proof.
  intros ts path w1.
  unfold okx_balance_secure.get_account_balance, bind.
  unfold okx_balance_secure._get_timestamp, bind, utcnow_strftime, ret.
  assert (Hpath : match ccy with
                  | Some (c :: cs) =>
                      py "/api/v5/account/balance" ++ (py "?ccy=" ++ c :: cs)
                  | _ => py "/api/v5/account/balance"
                  end = path).
  { subst path. destruct ccy as [[|c cs]|]; reflexivity. }
  rewrite Hpath, secure_headers_run. fold ts.
  destruct (spec_signature secret ts (py "GET") path (py "")) as [sig|e];
    [|reflexivity].
  simpl. unfold requests_get_json. simpl.
  destruct (network w _); reflexivity.
Qed.

(** C9: in [get_account_balance] of both clients the path is the bare
    endpoint when [ccy] is [None] or the empty string, and the endpoint
    followed by [?ccy=] and [ccy] otherwise.  That path is the one signed
    (the request carries the signature of GET on this path with an empty
    body, at the time read from the clock) and the one requested (the URL is
    the base URL followed by it); when the signature cannot be computed,
    nothing is sent. *)
Theorem balance_request_path (ak secret pp bu : pystr) (ccy : option pystr) (w : World) :
  let path := spec_request_path ccy in
  let ts := drop_last3 (clock w (ticks w)) ++ py "Z" in
  let basic := okx_account_balance.MkClient ak secret pp bu in
  let secure := okx_balance_secure.MkClient ak secret pp bu in
  let run_basic := okx_account_balance.get_account_balance basic ccy w in
  let run_secure := okx_balance_secure.get_account_balance secure ccy w in
  (forall sig,
     fst (okx_account_balance._generate_signature basic ts (py "GET") path (py "") w)
       = Ok sig ->
     exists h, sent (snd run_basic) = sent w ++ [Request (bu ++ path) h 30] /\
               has_five_fields h ak sig ts pp) /\
  (forall sig,
     fst (okx_balance_secure._generate_signature secure ts (py "GET") path (py "") w)
       = Ok sig ->
     exists h, sent (snd run_secure) = sent w ++ [Request (bu ++ path) h 30] /\
               has_five_fields h ak sig ts pp) /\
  (forall e,
     fst (okx_account_balance._generate_signature basic ts (py "GET") path (py "") w)
       = Raise e ->
     fst run_basic = Raise e /\ sent (snd run_basic) = sent w) /\
  (forall e,
     fst (okx_balance_secure._generate_signature secure ts (py "GET") path (py "") w)
       = Raise e ->
     fst run_secure = Raise e /\ sent (snd run_secure) = sent w).
Proof.
  intros path ts basic secure run_basic run_secure.
  subst basic secure run_basic run_secure.
  rewrite basic_signature_run, secure_signature_run.
  rewrite basic_balance_run, secure_balance_run. fold path ts. simpl.
  split_and!; intros x ->; simpl; try done;
    (eexists; split; [reflexivity | apply spec_headers_fields]).
Qed.

(** The request for the BTC balance, at the time of the worked example. *)
Lemma balance_request_path_witness :
  exists h,
    sent (snd (okx_balance_secure.get_account_balance
                 (okx_balance_secure.MkClient
                    (py "key") (py "22582BD0CFF14C41EDBF1AB98506286D") (py "pass")
                    (py "https://www.okx.com"))
                 (Some (py "BTC")) world0))
    = sent world0
      ++ [Request (py "https://www.okx.com" ++ py "/api/v5/account/balance?ccy=BTC") h 30]
    /\ has_five_fields h (py "key") (py "HiZhvSfMtWJA3uUIVXV3a/bSXNPCWvYFXoGCVS8V4zY=")
                       (py "2020-12-08T09:08:57.715Z") (py "pass").
Proof.
  apply (proj1 (proj2 (balance_request_path
           (py "key") (py "22582BD0CFF14C41EDBF1AB98506286D") (py "pass")
           (py "https://www.okx.com") (Some (py "BTC")) world0))).
  vm_compute. reflexivity.
Defined.

(** ** The formatters *)

Lemma eq_str_false (x : pyobj) (s : pystr) :
  x <> PStr s -> eq_str x s = false.
Proof.
  intros H. destruct x; try reflexivity. simpl.
  apply bool_decide_eq_false_2. congruence.
Qed.

Lemma dict_contains_false (d : pydict) (key : pystr) :
  dict_lookup d key = None -> dict_contains d key = false.
Proof. unfold dict_contains. by intros ->. Qed.

(** C7 fails as stated: a message with a lone surrogate, which
    [response.json()] builds from the escape [\ud800], cannot be written to
    the standard output; both formatters raise [UnicodeEncodeError] and
    nothing is printed, so the message is not surfaced. *)
Lemma unwritable_message_is_not_surfaced :
  dict_lookup [(py "code", PStr (py "1")); (py "msg", PStr [0xD800])] (py "error") = None /\
  dict_lookup [(py "code", PStr (py "1")); (py "msg", PStr [0xD800])] (py "code")
    <> Some (PStr (py "0")) /\
  okx_balance_secure.format_balance_response
    (okx_balance_secure.MkClient (py "key") (py "secret") (py "pass")
                                 (py "https://www.okx.com"))
    [(py "code", PStr (py "1")); (py "msg", PStr [0xD800])] world0
  = (Raise UnicodeEncodeError, world0) /\
  okx_account_balance.format_balance_response
    (okx_account_balance.MkClient (py "key") (py "secret") (py "pass")
                                  (py "https://www.okx.com"))
    [(py "code", PStr (py "1")); (py "msg", PStr [0xD800])] world0
  = (Raise UnicodeEncodeError, world0).
Proof. split_and!; vm_compute; try reflexivity. discriminate. Qed.

(** C7, amended: for every response dict without an [error] key whose
    [code] is not the string ["0"] (or is missing), each formatter prints one
    line, the application-error message built on the [msg] field (on its
    stand-in when the field is missing), and nothing else, provided the text
    can be written: the message, and the code, which the secure formatter
    shows too, is no string with a lone surrogate.  Where it cannot, the
    formatter raises [UnicodeEncodeError] and prints nothing.  No balance
    entry is rendered in either case. *)
Theorem application_error_is_surfaced (response : pydict) (w : World)
    (basic : okx_account_balance.OKXAPIClient)
    (secure : okx_balance_secure.OKXAPIClient) :
  dict_lookup response (py "error") = None ->
  dict_lookup response (py "code") <> Some (PStr (py "0")) ->
  let code := dict_get response (py "code") PNone in
  let msg := dict_get response (py "msg") (PStr (py_utf8 "未知错误")) in
  (writable code && writable msg = true ->
   okx_balance_secure.format_balance_response secure response w
   = (Ok tt, add_lines w [[Text "❌ API错误 (代码: "; Fmt code; Text "): "; Fmt msg]])) /\
  (writable code && writable msg = false ->
   okx_balance_secure.format_balance_response secure response w
   = (Raise UnicodeEncodeError, w)) /\
  (writable msg = true ->
   okx_account_balance.format_balance_response basic response w
   = (Ok tt, add_lines w [[Text "❌ API错误: "; Fmt msg]])) /\
  (writable msg = false ->
   okx_account_balance.format_balance_response basic response w
   = (Raise UnicodeEncodeError, w)).
Proof.
  intros Herr Hcode code msg.
  unfold okx_balance_secure.format_balance_response,
         okx_account_balance.format_balance_response.
  rewrite (dict_contains_false _ _ Herr).
  assert (Hne : eq_str (dict_get response (py "code") PNone) (py "0") = false).
  { apply eq_str_false. unfold dict_get.
    destruct (dict_lookup response (py "code")) as [v|]; congruence. }
  rewrite Hne. cbn [negb]. fold code msg.
  split_and!; intros H.
  - apply print_run. unfold printable. cbn [forallb fragment_ok andb].
    by rewrite andb_true_r.
  - apply print_raise. unfold printable. cbn [forallb fragment_ok andb].
    by rewrite andb_true_r.
  - apply print_run. unfold printable. cbn [forallb fragment_ok andb].
    by rewrite andb_true_r.
  - apply print_raise. unfold printable. cbn [forallb fragment_ok andb].
    by rewrite andb_true_r.
Qed.

(** The response [code="1"], [msg="Invalid Sign"] of section 8. *)
Lemma application_error_is_surfaced_witness :
  okx_balance_secure.format_balance_response
    (okx_balance_secure.MkClient (py "key") (py "secret") (py "pass")
                                 (py "https://www.okx.com"))
    [(py "code", PStr (py "1")); (py "msg", PStr (py "Invalid Sign"))] world0
  = (Ok tt, add_lines world0
              [[Text "❌ API错误 (代码: "; Fmt (PStr (py "1")); Text "): ";
                Fmt (PStr (py "Invalid Sign"))]])
  /\
  okx_account_balance.format_balance_response
    (okx_account_balance.MkClient (py "key") (py "secret") (py "pass")
                                  (py "https://www.okx.com"))
    [(py "code", PStr (py "1")); (py "msg", PStr (py "Invalid Sign"))] world0
  = (Ok tt, add_lines world0 [[Text "❌ API错误: "; Fmt (PStr (py "Invalid Sign"))]]).
Proof.
  pose proof (application_error_is_surfaced
                [(py "code", PStr (py "1")); (py "msg", PStr (py "Invalid Sign"))] world0
                (okx_account_balance.MkClient (py "key") (py "secret") (py "pass")
                                              (py "https://www.okx.com"))
                (okx_balance_secure.MkClient (py "key") (py "secret") (py "pass")
                                             (py "https://www.okx.com"))
                eq_refl ltac:(vm_compute; discriminate)) as (Hs & _ & Hb & _).
  split; [apply Hs | apply Hb]; reflexivity.
Defined.

Lemma for_each_run {A} (body : A -> M unit) (lines : A -> list line) (l : list A) :
  (forall x w, In x l -> body x w = (Ok tt, add_lines w (lines x))) ->
  forall w, for_each l body w = (Ok tt, add_lines w (flat_map lines l)).
Proof.
  induction l as [|x l IH]; intros Hbody w; simpl.
  - by rewrite add_lines_nil.
  - unfold bind. rewrite Hbody by (by left).
    rewrite IH by (intros; apply Hbody; by right).
    by rewrite add_lines_add_lines.
Qed.

Lemma print_detail_run (e : pydict) (w : World) :
  writable_entry (PDict e) = true ->
  print_detail (PDict e) w = (Ok tt, add_lines w (detail_lines (PDict e))).
Proof.
  unfold writable_entry. cbn [detail_lines forallb].
  intros H. repeat (apply andb_prop in H as [? H]).
  unfold print_detail. cbn [obj_get]. unfold lift.
  do 4 (rewrite bind_run; cbv beta iota).
  do 4 (rewrite bind_run, print_run by assumption; cbv beta iota).
  rewrite print_run by reflexivity.
  by rewrite !add_lines_add_lines.
Qed.

(** *** The filter and the sort *)

Lemma filter_result_Ok {A} (p : A -> result bool) (q : A -> bool) (l : list A) :
  (forall x, In x l -> p x = Ok (q x)) -> filter_result p l = Ok (List.filter q l).
Proof.
  induction l as [|x l IH]; intros H; simpl; [reflexivity|].
  rewrite (H x) by (by left). simpl.
  rewrite IH by (intros; apply H; by right). simpl.
  by destruct (q x).
Qed.

Lemma map_result_Ok {A B} (f : A -> result B) (g : A -> B) (l : list A) :
  (forall x, In x l -> f x = Ok (g x)) -> map_result f l = Ok (map g l).
Proof.
  induction l as [|x l IH]; intros H; simpl; [reflexivity|].
  rewrite (H x) by (by left). simpl.
  by rewrite IH by (intros; apply H; by right).
Qed.

Section sort_desc.
Context {A : Type}.
Implicit Types (x y : pyfloat * A) (l : list (pyfloat * A)).

Lemma insert_desc_perm x l :
  Permutation (insert_desc x l) (x :: l).
Proof.
  induction l as [|y l IH]; simpl; [done|].
  destruct (float_ltb (fst x) (fst y)); [|done].
  rewrite IH. apply perm_swap.
Qed.

Lemma sort_desc_perm l : Permutation (sort_desc l) l.
Proof.
  induction l as [|x l IH]; simpl; [done|].
  unfold sort_desc in *. simpl. by rewrite insert_desc_perm, IH.
Qed.

Lemma float_ltb_asym (a b : pyfloat) : float_ltb a b = true -> float_ltb b a = false.
Proof. destruct a as [|[]|x], b as [|[]|y]; simpl; try done. lia. Qed.

Lemma float_nlt_trans (a b c : pyfloat) :
  nonneg_float a = true -> nonneg_float b = true -> nonneg_float c = true ->
  float_ltb a b = false -> float_ltb b c = false -> float_ltb a c = false.
Proof. destruct a as [|[]|x], b as [|[]|y], c as [|[]|z]; simpl; try done. lia. Qed.

Lemma insert_desc_sorted x l :
  nonneg_float (fst x) = true ->
  Forall (fun y => nonneg_float (fst y) = true) l ->
  StronglySorted key_ge l -> StronglySorted key_ge (insert_desc x l).
Proof.
  intros Hx Hl Hs. induction Hs as [|y l Hs IH Hy]; simpl.
  - repeat constructor.
  - apply Forall_cons in Hl as [Hny Hl].
    destruct (float_ltb (fst x) (fst y)) eqn:E.
    + constructor; [by apply IH|].
      apply Forall_forall. intros z Hz. apply list_elem_of_In in Hz.
      apply (Permutation_in _ (insert_desc_perm x l)) in Hz as [<-|Hz].
      * by apply float_ltb_asym.
      * rewrite Forall_forall in Hy. by apply Hy, list_elem_of_In.
    + constructor; [by constructor|].
      constructor; [done|].
      rewrite Forall_forall in Hy, Hl. apply Forall_forall. intros z Hz.
      unfold key_ge. apply (float_nlt_trans _ (fst y)); auto.
      by apply Hy.
Qed.

Lemma sort_desc_sorted l :
  Forall (fun y => nonneg_float (fst y) = true) l -> StronglySorted key_ge (sort_desc l).
Proof.
  induction l as [|x l IH]; intros H; [constructor|].
  apply Forall_cons in H as [Hx Hl]. unfold sort_desc in *. simpl.
  apply insert_desc_sorted; [done | | by apply IH].
  apply Forall_forall. intros z Hz. apply list_elem_of_In in Hz.
  apply (Permutation_in _ (sort_desc_perm l)) in Hz.
  rewrite Forall_forall in Hl. by apply Hl, list_elem_of_In.
Qed.

End sort_desc.


Lemma balance_entry_cash_float (d : pyobj) :
  balance_entry d = true -> okx_balance_secure.cash_float d = Ok (balance_of d).
Proof.
  unfold balance_entry, balance_of. intros H. apply andb_prop in H as [_ H].
  by destruct (okx_balance_secure.cash_float d).
Qed.

Lemma nonneg_positive (f : pyfloat) :
  nonneg_float f = true -> float_positive f = negb (is_zero_float f).
Proof. destruct f as [|[]|k]; simpl; try done. unfold float_positive. simpl. lia. Qed.

Lemma combine_map_fst_snd {A B} (f : A -> B) (l : list A) :
  map snd (combine (map f l) l) = l /\
  Forall (fun p => fst p = f (snd p)) (combine (map f l) l).
Proof.
  induction l as [|x l [IH1 IH2]]; simpl; [by split|].
  split; [by rewrite IH1 | by constructor].
Qed.

(** What is shown is what has a balance other than zero, the largest
    first. *)
Lemma shown_entries_spec (ds : list pyobj) :
  Forall (fun d => balance_entry d = true) ds ->
  Permutation (shown_entries ds)
              (List.filter (fun d => negb (is_zero_float (balance_of d))) ds) /\
  descending_balance (shown_entries ds) /\
  Forall (fun d => is_dict d = true) (shown_entries ds).
Proof.
  intros Hds. unfold shown_entries.
  set (nz := List.filter (fun d => float_positive (balance_of d)) ds).
  assert (Hnz : Forall (fun d => balance_entry d = true) nz).
  { apply Forall_forall. intros d Hd. apply list_elem_of_In, filter_In in Hd as [Hd _].
    rewrite Forall_forall in Hds. by apply Hds, list_elem_of_In. }
  destruct (combine_map_fst_snd balance_of nz) as [Hsnd Hfst].
  set (dec := combine (map balance_of nz) nz) in *.
  assert (Hperm : Permutation (map snd (sort_desc dec)) nz).
  { etransitivity; [apply Permutation_map, sort_desc_perm | by rewrite Hsnd]. }
  assert (Hdec : Forall (fun p => fst p = balance_of (snd p)) (sort_desc dec)).
  { apply Forall_forall. intros p Hp. apply list_elem_of_In in Hp.
    apply (Permutation_in _ (sort_desc_perm dec)) in Hp.
    rewrite Forall_forall in Hfst. by apply Hfst, list_elem_of_In. }
  split_and!.
  - rewrite Hperm. subst nz.
    replace (List.filter (fun d => negb (is_zero_float (balance_of d))) ds)
      with (List.filter (fun d => float_positive (balance_of d)) ds); [done|].
    apply filter_ext_in. intros d Hd. apply nonneg_positive.
    rewrite Forall_forall in Hds. apply list_elem_of_In, Hds in Hd.
    unfold balance_entry in Hd. by apply andb_prop in Hd as [_ ?].
  - assert (Hs : StronglySorted key_ge (sort_desc dec)).
    { apply sort_desc_sorted. apply Forall_forall. intros p Hp.
      apply list_elem_of_In in Hp. subst dec.
      rewrite Forall_forall in Hfst.
      rewrite (Hfst p) by (by apply list_elem_of_In).
      destruct p as [k d]. apply in_combine_r in Hp. rewrite Forall_forall in Hnz.
      apply list_elem_of_In, Hnz in Hp. unfold balance_entry in Hp.
      by apply andb_prop in Hp as [_ ?]. }
    unfold descending_balance. revert Hdec Hs. clear.
    induction (sort_desc dec) as [|p l IH]; intros Hdec Hs; simpl; [constructor|].
    apply Forall_cons in Hdec as [Hp Hl]. inversion Hs as [|? ? Hs' Hall]; subst.
    constructor; [by apply IH|].
    apply Forall_forall. intros d Hd. apply list_elem_of_In, in_map_iff in Hd
      as (q & <- & Hq).
    rewrite Forall_forall in Hall, Hl.
    apply list_elem_of_In in Hq.
    specialize (Hall q Hq). unfold key_ge in Hall.
    by rewrite Hp, (Hl q Hq) in Hall.
  - apply Forall_forall. intros d Hd. apply list_elem_of_In in Hd.
    apply (Permutation_in _ Hperm) in Hd.
    rewrite Forall_forall in Hnz. apply list_elem_of_In, Hnz in Hd.
    unfold balance_entry in Hd. by apply andb_prop in Hd as [? _].
Qed.

Lemma shown_entries_writable (ds : list pyobj) :
  Forall (fun d => balance_entry d = true) ds ->
  Forall (fun d => is_zero_float (balance_of d) = false -> writable_entry d = true) ds ->
  Forall (fun d => writable_entry d = true) (shown_entries ds).
Proof.
  intros Hds Hw. destruct (shown_entries_spec ds Hds) as (Hperm & _ & _).
  apply Forall_forall. intros d Hd. apply list_elem_of_In in Hd.
  apply (Permutation_in _ Hperm), filter_In in Hd as [Hd Hnz].
  rewrite Forall_forall in Hw. apply Hw; [by apply list_elem_of_In|].
  by apply negb_true_iff.
Qed.

(** One turn of the loop over the accounts, in the secure formatter. *)
Lemma secure_account_run (account : pyobj) (w : World) :
  balance_account account ->
  shown_writable account ->
  (details <- lift (obj_get account (py "details") (PList [])) ;;
   if negb (truthy details) then print [Text "   暂无余额信息"]
   else
     items <- lift (iterate details) ;;
     non_zero_details <-
       lift (filter_result
               (fun d => result_map float_positive (okx_balance_secure.cash_float d))
               items) ;;
     sorted_details <- lift (sorted_reverse okx_balance_secure.cash_float non_zero_details) ;;
     match sorted_details with
     | [] => print [Text "   所有币种余额为0"]
     | _ => for_each sorted_details print_detail
     end)%py w
  = (Ok tt, add_lines w (account_lines (shown_entries (details_of account)))).
Proof.
  intros (Hdict & Hne & Hds) Hwr. unfold shown_writable in Hwr.
  set (ds := details_of account) in *.
  assert (Hget : obj_get account (py "details") (PList []) = Ok (PList ds)).
  { destruct account as [| | | | | |a]; try discriminate.
    subst ds. unfold details_of in *. simpl. unfold dict_get.
    by destruct (dict_lookup a (py "details")) as [[| | | | |l|]|]. }
  assert (Ht : truthy (PList ds) = true) by (by destruct ds).
  unfold bind, lift. rewrite Hget. cbv beta iota. rewrite Ht.
  cbn [negb iterate]. cbv beta iota.
  rewrite (filter_result_Ok _ (fun d => float_positive (balance_of d))).
  2:{ intros d Hd. rewrite Forall_forall in Hds.
      rewrite balance_entry_cash_float; [done|]. by apply Hds, list_elem_of_In. }
  cbv beta iota. unfold sorted_reverse.
  rewrite (map_result_Ok _ balance_of).
  2:{ intros d Hd. apply filter_In in Hd as [Hd _]. rewrite Forall_forall in Hds.
      apply balance_entry_cash_float. by apply Hds, list_elem_of_In. }
  cbn [result_bind]. cbv beta iota. fold (shown_entries ds).
  destruct (shown_entries_spec ds Hds) as (_ & _ & Hall).
  pose proof (shown_entries_writable ds Hds Hwr) as Hshown.
  destruct (shown_entries ds) as [|s sh] eqn:Esh; [reflexivity|].
  rewrite (for_each_run print_detail detail_lines); [reflexivity|].
  intros x w' Hx. rewrite Forall_forall in Hall, Hshown.
  apply list_elem_of_In in Hx.
  pose proof (Hall x Hx) as Hdx. pose proof (Hshown x Hx) as Hwx.
  destruct x; try discriminate. by apply print_detail_run.
Qed.

(** C6 fails as stated: a response whose code is ["0"] and whose details
    hold a zero and a non-zero balance, but which also has an [error] key,
    gets the error line alone; the non-zero entry is not displayed. *)
Lemma error_key_hides_balances :
  dict_lookup response_with_error_key (py "code") = Some (PStr (py "0")) /\
  okx_balance_secure.format_balance_response secure_client0 response_with_error_key world0
  = (Ok tt, add_lines world0 [[Text "❌ 错误: "; Fmt (PStr (py "stale"))]]).
Proof. split; vm_compute; reflexivity. Qed.

(** An entry of a negative balance is dropped with the zero ones: the test
    of the filter is [> 0]. *)
Example negative_balance_is_omitted :
  okx_balance_secure.format_balance_response secure_client0 response_negative_balance world0
  = (Ok tt,
     add_lines world0
       (banner_lines
        ++ detail_lines (PDict [(py "ccy", PStr (py "BTC")); (py "cashBal", PStr (py "1"))]))).
Proof. vm_compute. reflexivity. Qed.

(** A balance that is no number, such as the empty string, stops the
    formatter with a [ValueError] after the banner. *)
Example empty_balance_raises :
  okx_balance_secure.format_balance_response secure_client0
    [ (py "code", PStr (py "0"));
      (py "data",
       PList [PDict [(py "details",
         PList [PDict [(py "ccy", PStr (py "BTC")); (py "cashBal", PStr (py ""))]])]]) ]
    world0
  = (Raise ValueError, add_lines world0 banner_lines).
Proof. vm_compute. reflexivity. Qed.

(** The basic formatter filters nothing and sorts nothing. *)
Example basic_formatter_shows_all :
  exists basic,
  okx_account_balance.format_balance_response basic response_negative_balance world0
  = (Ok tt,
     add_lines world0
       (banner_lines
        ++ detail_lines (PDict [(py "ccy", PStr (py "USDT")); (py "cashBal", PStr (py "-5"))])
        ++ detail_lines (PDict [(py "ccy", PStr (py "BTC")); (py "cashBal", PStr (py "1"))]))).
Proof.
  exists (okx_account_balance.MkClient (py "key") (py "secret") (py "pass") (py "url")).
  vm_compute. reflexivity.
Qed.

(** The zero entry is left out, the largest balance comes first, and equal
    balances keep their order. *)
Example four_balances_listing :
  okx_balance_secure.format_balance_response secure_client0 response_four_balances world0
  = (Ok tt,
     add_lines world0
       (banner_lines
        ++ detail_lines (PDict [(py "ccy", PStr (py "USDT")); (py "cashBal", PStr (py "2"))])
        ++ detail_lines (PDict [(py "ccy", PStr (py "BTC")); (py "cashBal", PStr (py "0.5"))])
        ++ detail_lines (PDict [(py "ccy", PStr (py "OKB")); (py "cashBal", PStr (py "0.50"))]))).
Proof. vm_compute. reflexivity. Qed.

(** A currency name with a lone surrogate cannot be written: the formatter
    raises [UnicodeEncodeError] after the banner. *)
Example unwritable_currency_raises :
  okx_balance_secure.format_balance_response secure_client0
    [ (py "code", PStr (py "0"));
      (py "data",
       PList [PDict [(py "details",
         PList [PDict [(py "ccy", PStr [0xD800]); (py "cashBal", PStr (py "1"))]])]]) ]
    world0
  = (Raise UnicodeEncodeError, add_lines world0 banner_lines).
Proof. vm_compute. reflexivity. Qed.

(** C6, amended: for every response dict without an [error] key whose code
    is ["0"] and whose data is a list of accounts, each a dict with a
    details list that is not empty and whose entries are dicts with a
    [cashBal] that [float] reads as zero, a positive number or infinity, the
    fields shown of the entries of a balance other than zero being no
    strings with a lone surrogate, the secure formatter prints the banner
    and then, account by account, the entries whose balance is not zero,
    every zero-balance entry left out, in descending order of balance (or
    one line saying that all are zero). *)
Theorem balances_filtered_and_sorted (self : okx_balance_secure.OKXAPIClient)
    (response : pydict) (accounts : list pyobj) (w : World) :
  dict_lookup response (py "error") = None ->
  dict_lookup response (py "code") = Some (PStr (py "0")) ->
  dict_lookup response (py "data") = Some (PList accounts) ->
  accounts <> [] ->
  Forall balance_account accounts ->
  Forall shown_writable accounts ->
  exists shown : pyobj -> list pyobj,
    (forall account, In account accounts ->
       Permutation (shown account)
         (List.filter (fun d => negb (is_zero_float (balance_of d))) (details_of account))
       /\ descending_balance (shown account)) /\
    okx_balance_secure.format_balance_response self response w
    = (Ok tt,
       add_lines w (banner_lines
                    ++ flat_map (fun account => account_lines (shown account)) accounts)).
Proof.
  intros Herr Hcode Hdata Hne Hacc Hwr.
  exists (fun account => shown_entries (details_of account)). split.
  - intros account Hin. rewrite Forall_forall in Hacc.
    apply list_elem_of_In, Hacc in Hin. destruct Hin as (_ & _ & Hds).
    destruct (shown_entries_spec _ Hds) as (Hp & Hs & _). by split.
  - unfold okx_balance_secure.format_balance_response.
    rewrite (dict_contains_false _ _ Herr).
    unfold dict_get. rewrite Hcode, Hdata.
    replace (eq_str (PStr (py "0")) (py "0")) with true by reflexivity.
    replace (truthy (PList accounts)) with true by (by destruct accounts).
    cbn [negb]. unfold bind at 1. rewrite print_run by reflexivity.
    unfold bind at 1. rewrite print_run by reflexivity.
    unfold bind at 1, lift at 1. cbn [iterate].
    rewrite (for_each_run _
               (fun account => account_lines (shown_entries (details_of account)))).
    + by rewrite !add_lines_add_lines.
    + intros account w' Hin. rewrite Forall_forall in Hacc, Hwr.
      apply secure_account_run; [apply Hacc | apply Hwr]; by apply list_elem_of_In.
Qed.

(** The response with the balances 0.5, 0, 2 and 0.50. *)
Lemma balances_filtered_and_sorted_witness :
  exists shown : pyobj -> list pyobj,
    (forall account,
       In account
          [PDict [(py "details",
             PList [ PDict [(py "ccy", PStr (py "BTC")); (py "cashBal", PStr (py "0.5"))];
                     PDict [(py "ccy", PStr (py "ETH")); (py "cashBal", PStr (py "0"))];
                     PDict [(py "ccy", PStr (py "USDT")); (py "cashBal", PStr (py "2"))];
                     PDict [(py "ccy", PStr (py "OKB")); (py "cashBal", PStr (py "0.50"))] ])]] ->
       Permutation (shown account)
         (List.filter (fun d => negb (is_zero_float (balance_of d))) (details_of account))
       /\ descending_balance (shown account)) /\
    okx_balance_secure.format_balance_response secure_client0 response_four_balances world0
    = (Ok tt,
       add_lines world0
         (banner_lines
          ++ flat_map (fun account => account_lines (shown account))
               [PDict [(py "details",
                  PList [ PDict [(py "ccy", PStr (py "BTC")); (py "cashBal", PStr (py "0.5"))];
                          PDict [(py "ccy", PStr (py "ETH")); (py "cashBal", PStr (py "0"))];
                          PDict [(py "ccy", PStr (py "USDT")); (py "cashBal", PStr (py "2"))];
                          PDict [(py "ccy", PStr (py "OKB")); (py "cashBal", PStr (py "0.50"))] ])]])).
Proof.
  apply (balances_filtered_and_sorted secure_client0 response_four_balances _ world0).
  - reflexivity.
  - reflexivity.
  - reflexivity.
  - discriminate.
  - repeat constructor; vm_compute; try reflexivity; discriminate.
  - repeat constructor; intros _; vm_compute; reflexivity.
Defined.
